(** * mqttactions: the message dispatcher (runtime.py) and the daily scheduler (geo.py)

    A shallow embedding of [mqttactions/runtime.py] and [mqttactions/geo.py].

    - Python values that reach the dispatcher are an inductive type [pyval];
      [None] is the constructor [VNone], so an [Optional[Any]] argument is a
      [pyval].  Floats are left out (JSON numbers with a fraction or an
      exponent are outside the model).
    - User code (subscriber callbacks, scheduled functions) is opaque: all the
      dispatcher and the scheduler see of a call is whether it returns or
      raises, and of a callback also whether it has a [__name__] and a
      signature.
    - The two library decoders called by the converters ([bytes.decode] and
      [json.loads]) are parameters of the dispatcher; so are the sunrise and
      sunset functions of the [suntime] library for the scheduler.  Each of
      them returns or raises.
    - Effects are explicit: [notify] returns the trace of converter and
      callback invocations together with the way it ends; the module globals
      of runtime.py are a record threaded through the module functions; the
      scheduler is a transition system over the pending queue. *)

From Stdlib Require Import ZArith Lia Bool String Ascii.
From Stdlib.Strings Require Import Byte.
From stdpp Require Import base option list gmap strings.

Local Open Scope Z_scope.
Set Warnings "-register-all".

(* ===================================================================== *)
(** * Part I: runtime.py                                                  *)
(* ===================================================================== *)

(** ** Python values and their classes *)

Definition bytes := list byte.

(** The classes that can occur as [payload_filter.__class__], as a parameter
    annotation, or as the origin of a [typing] generic.  [Cother] stands for
    any other class or special form ([typing.Union], user classes, ...). *)
Inductive pyclass :=
| Cbytes | Cstr | Cdict | Cint | Cbool | Clist | CNoneType
| Cother (name : string).

(** An object as it can stand in a parameter annotation, be the class of a
    filter or a key of the two tables: a class; a subscripted generic such as
    [Dict[str, Any]], of which the code only ever looks at the origin; or
    any other object (the string that postponed evaluation of annotations
    leaves, a number, a list, ...), of which the code only uses the truth
    value (in [or]) and whether it can be hashed (in [in]).  [None] is not
    among them: see [annotation]. *)
Inductive pytype :=
| Plain (c : pyclass)
| Alias (origin : pyclass)
| Object (name : string) (truth : bool) (can_hash : bool).

(** [bool(ty)]: classes and generics are true. *)
Definition truthy (ty : pytype) : bool :=
  match ty with
  | Object _ truth _ => truth
  | _ => true
  end.

(** Whether [hash(ty)] returns: classes and generics can be hashed. *)
Definition hashable (ty : pytype) : bool :=
  match ty with
  | Object _ _ can_hash => can_hash
  | _ => true
  end.

#[global] Instance pyclass_eq_dec : EqDecision pyclass.
Proof. solve_decision. Defined.
#[global] Instance pytype_eq_dec : EqDecision pytype.
Proof. solve_decision. Defined.

(** A [str] is represented by its UTF-8 encoding, a [dict] by its items in
    insertion order (keys are strings, as [json.loads] produces them). *)
Inductive pyval :=
| VNone
| VBool (b : bool)
| VInt (n : Z)
| VStr (s : string)
| VBytes (b : bytes)
| VList (l : list pyval)
| VDict (items : list (string * pyval)).

Definition is_none (v : pyval) : bool :=
  match v with VNone => true | _ => false end.

(** [v.__class__] *)
Definition class_of (v : pyval) : pytype :=
  Plain match v with
        | VNone => CNoneType
        | VBool _ => Cbool
        | VInt _ => Cint
        | VStr _ => Cstr
        | VBytes _ => Cbytes
        | VList _ => Clist
        | VDict _ => Cdict
        end.

Fixpoint bytes_eqb (a b : bytes) : bool :=
  match a, b with
  | [], [] => true
  | x :: a', y :: b' => Byte.eqb x y && bytes_eqb a' b'
  | _, _ => false
  end.

Fixpoint dict_get (k : string) (items : list (string * pyval)) : option pyval :=
  match items with
  | [] => None
  | (k', v) :: rest => if String.eqb k k' then Some v else dict_get k rest
  end.

(** Python's [==] on these values: [bool] is an [int] ([True == 1]); lists are
    compared element by element; dicts have the same keys with equal values,
    whatever the order. *)
Fixpoint py_eq (a b : pyval) {struct a} : bool :=
  match a, b with
  | VNone, VNone => true
  | VBool x, VBool y => Bool.eqb x y
  | VBool x, VInt y => Z.eqb (Z.b2z x) y
  | VInt x, VBool y => Z.eqb x (Z.b2z y)
  | VInt x, VInt y => Z.eqb x y
  | VStr x, VStr y => String.eqb x y
  | VBytes x, VBytes y => bytes_eqb x y
  | VList x, VList y =>
      (fix go (l1 : list pyval) (l2 : list pyval) {struct l1} : bool :=
         match l1, l2 with
         | [], [] => true
         | h1 :: t1, h2 :: t2 => py_eq h1 h2 && go t1 t2
         | _, _ => false
         end) x y
  | VDict x, VDict y =>
      Nat.eqb (length x) (length y) &&
      (fix go (kvs : list (string * pyval)) {struct kvs} : bool :=
         match kvs with
         | [] => true
         | (k, v) :: rest =>
             match dict_get k y with
             | Some v' => py_eq v v'
             | None => false
             end && go rest
         end) x
  | _, _ => false
  end.

(** Python's [!=] for the built-in classes is the negation of [==]. *)
Definition py_ne (a b : pyval) : bool := negb (py_eq a b).

(** ** Exceptions and results *)

(** An exception that is an instance of [Exception], by the name of its
    class: what [except Exception] catches.  The exceptions that are not
    ([SystemExit], [KeyboardInterrupt]) make a difference only where the code
    catches what user code raises, in the scheduler loop; they are a case of
    their own there (see [job_exit]). *)
Inductive pyexc := Exception (cls : string).

(** The way a call ends: it returns a value or raises. *)
Inductive result (A : Type) :=
| Ok (a : A)
| Raise (e : pyexc).
Arguments Ok {A} a.
Arguments Raise {A} e.

(** ** The library functions the converters call *)

Record PyLib := {
  (** [payload.decode('utf8')]: the text, or [UnicodeDecodeError] *)
  bytes_decode_utf8 : bytes -> result string;
  (** [json.loads(payload)]: the document, or a decoding error (a
      [ValueError]) *)
  json_loads : bytes -> result pyval
}.

(** ** Callbacks and subscribers *)

(** The annotation of a parameter: [inspect._empty] when there is none,
    [None] for [def f(payload: None)], or another object. *)
Inductive annotation :=
| Empty
| AnnotNone
| Annot (ty : pytype).

(** A callable as the dispatcher sees it: its [__name__], if it has one (a
    [functools.partial] object has none); what [inspect.signature] gives for
    it, that is the annotations of its parameters, or the [ValueError] or
    [TypeError] raised for a callable without signature; and what a call
    does. *)
Record Callable := {
  cb_name : option string;
  cb_signature : result (list annotation);
  cb_call : list pyval -> result unit
}.

(** [class Subscriber(TypedDict)] *)
Record Subscriber := {
  callback : Callable;
  datatype : option pytype;
  payload_filter : pyval
}.

(** ** Insertion-ordered dictionaries keyed by type objects *)

Fixpoint dict_lookup {V : Type} (k : pytype) (d : list (pytype * V)) : option V :=
  match d with
  | [] => None
  | (k', v) :: rest => if decide (k = k') then Some v else dict_lookup k rest
  end.

(** [d[k] = v]: an existing key keeps its place, a new key goes last. *)
Fixpoint dict_set {V : Type} (k : pytype) (v : V) (d : list (pytype * V)) : list (pytype * V) :=
  match d with
  | [] => [(k, v)]
  | (k', v') :: rest =>
      if decide (k = k') then (k', v) :: rest else (k', v') :: dict_set k v rest
  end.

(** [typing.get_origin], applied to an optional type object *)
Definition get_origin (ty : option pytype) : option pytype :=
  match ty with
  | Some (Alias origin) => Some (Plain origin)
  | _ => None
  end.

(** What [notify] does, in order. *)
Inductive event :=
| Convert (ty : pytype)                 (* [self.converters[ty](payload)] is called *)
| LogError (ty : pytype) (e : pyexc)    (* [logger.error] of the [except] branch *)
| Call (cb : Callable) (args : list pyval).

(** What [add_subscriber] did when it returns: the three [logger.error]
    calls, or the list the subscriber was appended to. *)
Inductive report :=
| Registered (ty : pytype)
| TooManyArguments (n : nat)
| IncompatibleFilter
| UnsupportedType (ty : pytype).

Module SubscriberManager.

Definition converter := bytes -> result pyval.

Record t := {
  subscribers_by_type : list (pytype * list Subscriber);
  converters : list (pytype * converter)
}.

Definition _convert_to_bytes : converter :=
  fun payload => Ok (VBytes payload).

Definition _convert_to_str (L : PyLib) : converter :=
  fun payload =>
    match bytes_decode_utf8 L payload with
    | Ok s => Ok (VStr s)
    | Raise e => Raise e
    end.

Definition _convert_to_dict (L : PyLib) : converter :=
  fun payload => json_loads L payload.

(** [inspect.getmembers(self, predicate=inspect.isfunction)]: the static
    methods, sorted by name, each with its return annotation. *)
Definition getmembers (L : PyLib) : list (string * pytype * converter) :=
  [ ("_convert_to_bytes"%string, Plain Cbytes, _convert_to_bytes);
    ("_convert_to_dict"%string, Plain Cdict, _convert_to_dict L);
    ("_convert_to_str"%string, Plain Cstr, _convert_to_str L) ].

Definition __init__ (L : PyLib) : t :=
  fold_left
    (fun self '(name, return_type, method) =>
       if String.prefix "_convert_to_" name then
         {| subscribers_by_type := dict_set return_type [] (subscribers_by_type self);
            converters := dict_set return_type method (converters self) |}
       else self)
    (getmembers L)
    {| subscribers_by_type := []; converters := [] |}.

(** [logger.error(f"Subscriber {callback.__name__} ...")] followed by
    [return].  The message is built before it is logged, and building it
    raises [AttributeError] when the callback has no [__name__]. *)
Definition log_and_return (self : t) (callback : Callable) (what : report)
  : t * result report :=
  match cb_name callback with
  | Some _ => (self, Ok what)
  | None => (self, Raise (Exception "AttributeError"))
  end.

(** The manager after the call, and the way the call ends. *)
Definition add_subscriber (self : t) (callback : Callable) (payload_filter : pyval)
  : t * result report :=
  let filter_type :=
    if is_none payload_filter then None else Some (class_of payload_filter) in
  (* Try to infer the type of argument this callback expects. *)
  match cb_signature callback with
  | Raise e => (self, Raise e)
  | Ok params =>
  if (1 <? length params)%nat
  then log_and_return self callback (TooManyArguments (length params))
  else
    let callback_type : option pytype :=
      match params with
      | [argtype] =>
          match argtype with
          | Empty => Some (Plain Cbytes)   (* no annotation: the raw payload *)
          | AnnotNone => None              (* [callback_type = argtype], which is [None] *)
          | Annot ty => Some ty
          end
      | _ => None
      end in
    (* Normalize any type annotations from typing *)
    let callback_type :=
      match get_origin callback_type with
      | Some origin => Some origin
      | None => callback_type
      end in
    (* The payload filter and callback type must match *)
    if negb (is_none payload_filter)
       && match callback_type with
          | Some ct => negb (bool_decide (class_of payload_filter = ct))
          | None => false
          end
    then log_and_return self callback IncompatibleFilter
    else
      (* [callback_type or filter_type or bytes] *)
      let effective_type :=
        match callback_type, filter_type with
        | Some ct, Some ft => if truthy ct then ct else ft
        | Some ct, None => if truthy ct then ct else Plain Cbytes
        | None, Some ft => ft
        | None, None => Plain Cbytes
        end in
      (* [effective_type not in self.subscribers_by_type] hashes the key *)
      if negb (hashable effective_type)
      then (self, Raise (Exception "TypeError"))
      else
        match dict_lookup effective_type (subscribers_by_type self) with
        | None => log_and_return self callback (UnsupportedType effective_type)
        | Some subscribers =>
            ({| subscribers_by_type :=
                  dict_set effective_type
                    (subscribers ++ [ {| callback := callback;
                                        datatype := callback_type;
                                        payload_filter := payload_filter |} ])
                    (subscribers_by_type self);
                converters := converters self |},
             Ok (Registered effective_type))
        end
  end.

(** The inner loop of [notify]: the subscribers of one type, in order.  A
    callback that raises ends the loop (and the call of [notify]). *)
Fixpoint notify_subscribers (converted_payload : pyval) (subscribers : list Subscriber)
  : list event * result unit :=
  match subscribers with
  | [] => ([], Ok tt)
  | subscriber :: rest =>
      if negb (is_none (payload_filter subscriber))
         && py_ne converted_payload (payload_filter subscriber)
      then notify_subscribers converted_payload rest
      else
        let args :=
          match datatype subscriber with
          | None => []
          | Some _ => [converted_payload]
          end in
        match cb_call (callback subscriber) args with
        | Raise e => ([Call (callback subscriber) args], Raise e)
        | Ok _ =>
            let '(trace, r) := notify_subscribers converted_payload rest in
            (Call (callback subscriber) args :: trace, r)
        end
  end.

(** The outer loop of [notify], over [self.subscribers_by_type.items()]. *)
Fixpoint notify_items (convs : list (pytype * converter)) (payload : bytes)
    (items : list (pytype * list Subscriber)) : list event * result unit :=
  match items with
  | [] => ([], Ok tt)
  | (datatype, subscribers) :: rest =>
      match subscribers with
      | [] => notify_items convs payload rest
      | _ :: _ =>
          match dict_lookup datatype convs with
          | None =>
              let '(trace, r) := notify_items convs payload rest in
              (LogError datatype (Exception "KeyError") :: trace, r)
          | Some convert =>
              match convert payload with
              | Raise e =>
                  let '(trace, r) := notify_items convs payload rest in
                  (Convert datatype :: LogError datatype e :: trace, r)
              | Ok converted_payload =>
                  match notify_subscribers converted_payload subscribers with
                  | (trace1, Raise e) => (Convert datatype :: trace1, Raise e)
                  | (trace1, Ok _) =>
                      let '(trace, r) := notify_items convs payload rest in
                      (Convert datatype :: trace1 ++ trace, r)
                  end
              end
          end
      end
  end.

Definition notify (self : t) (payload : bytes) : list event * result unit :=
  notify_items (converters self) payload (subscribers_by_type self).

End SubscriberManager.

(** ** The module globals and the module-level functions *)

(** The bus client ([paho.mqtt.client.Client]) as far as this module drives
    it: the topics [subscribe] was called with, in order, and whether the
    [on_message] hook has been set to [_on_mqtt_message]. *)
Record Client := {
  subscribe_calls : list string;
  on_message : bool
}.

Definition subscribe (client : Client) (topic : string) : Client :=
  {| subscribe_calls := subscribe_calls client ++ [topic];
     on_message := on_message client |}.

(** [_mqtt_client] and [_subscribers] *)
Record Globals := {
  _mqtt_client : option Client;
  _subscribers : gmap string SubscriberManager.t
}.

(** The module right after import. *)
Definition module_init : Globals :=
  {| _mqtt_client := None; _subscribers := ∅ |}.

Definition register_client (g : Globals) (client : Client) : Globals :=
  {| _mqtt_client := Some {| subscribe_calls := subscribe_calls client; on_message := true |};
     _subscribers := _subscribers g |}.

Definition get_client (g : Globals) : result Client :=
  match _mqtt_client g with
  | None => Raise (Exception "No client was registered. Please make sure to call register_client")
  | Some client => Ok client
  end.

(** The globals after the call, and the way the call ends.  An exception of
    the manager's [add_subscriber] leaves through this function, after the
    subscription and the new manager have been made. *)
Definition add_subscriber (L : PyLib) (g : Globals) (topic : string)
    (callback : Callable) (payload_filter : pyval) : Globals * result unit :=
  let delegate (g : Globals) (manager : SubscriberManager.t) :=
    ({| _mqtt_client := _mqtt_client g;
        _subscribers :=
          <[topic := fst (SubscriberManager.add_subscriber manager callback payload_filter)]>
            (_subscribers g) |},
     match snd (SubscriberManager.add_subscriber manager callback payload_filter) with
     | Ok _ => Ok tt
     | Raise e => Raise e
     end) in
  match _subscribers g !! topic with
  | Some manager => delegate g manager
  | None =>
      match get_client g with
      | Raise e => (g, Raise e)
      | Ok client =>
          let manager := SubscriberManager.__init__ L in
          delegate {| _mqtt_client := Some (subscribe client topic);
                      _subscribers := <[topic := manager]> (_subscribers g) |}
                   manager
      end
  end.

(** What [_on_mqtt_message] does with a message: a warning when the topic has
    no subscribers, the manager's [notify] otherwise. *)
Inductive dispatch :=
| NoSubscribers
| Notified (trace : list event) (r : result unit).

Definition _on_mqtt_message (g : Globals) (topic : string) (payload : bytes) : dispatch :=
  match _subscribers g !! topic with
  | None => NoSubscribers
  | Some manager =>
      let '(trace, r) := SubscriberManager.notify manager payload in
      Notified trace r
  end.

(** A sequence of registrations, made one after the other.  Each call ends
    on its own, returning or raising, and the next one finds the globals as
    the calls before it have left them. *)
Fixpoint add_subscribers (L : PyLib) (g : Globals)
    (calls : list (string * Callable * pyval)) : Globals * list (result unit) :=
  match calls with
  | [] => (g, [])
  | (topic, callback, payload_filter) :: rest =>
      (fst (add_subscribers L (fst (add_subscriber L g topic callback payload_filter)) rest),
       snd (add_subscriber L g topic callback payload_filter)
         :: snd (add_subscribers L (fst (add_subscriber L g topic callback payload_filter))
                   rest))
  end.

(* ===================================================================== *)
(** * Part II: geo.py                                                     *)
(* ===================================================================== *)

(** ** Dates and times

    Every [datetime] that [Location] handles carries the location's own
    [tzinfo], and Python compares and shifts such values on their wall-clock
    fields.  A [datetime] is therefore the number of microseconds of local
    wall-clock time since midnight of day 0, a [date] is a day number, a
    [time] the microseconds since midnight and a [timedelta] a number of
    microseconds. *)
Abbreviation datetime := Z (only parsing).
Abbreviation date := Z (only parsing).
Abbreviation time := Z (only parsing).
Abbreviation timedelta := Z (only parsing).

Definition day : timedelta := 86400000000.

(** [dt.date()] *)
Definition date_of (dt : datetime) : date := dt / day.

(** [datetime.combine(d, t)] *)
Definition combine (d : date) (t : time) : datetime := d * day + t.

(** [time(12, 0)] *)
Definition noon : time := 12 * 3600 * 1000000.

(** [offset or timedelta()]: [None] and the zero [timedelta] are both falsy. *)
Definition or_timedelta (offset : option timedelta) : timedelta :=
  match offset with
  | Some d => if d =? 0 then 0 else d
  | None => 0
  end.

(** The [suntime.Sun] object of a location, with the location's timezone
    already passed: the sunrise and the sunset of the day of [at_date], or
    the [SunTimeException] of a day on which the sun does not rise or set at
    that place. *)
Record Sun := {
  get_sunrise_time : datetime -> result datetime;
  get_sunset_time : datetime -> result datetime
}.

(** ** Jobs and pending callbacks *)

(** The three nested [job] functions, each with the variables it captures.
    The decorated function is opaque; it is known by its name. *)
Inductive closure :=
| sunrise_job (func : string) (effective_offset : timedelta)
| sunset_job (func : string) (effective_offset : timedelta)
| localtime_job (func : string) (target_time : time).

(** A [job] function object.  Python compares functions by identity, which
    [job_id] stands for: every call of a decorator makes a new one. *)
Record Job := {
  job_id : nat;
  job_code : closure
}.

Definition func_of (j : Job) : string :=
  match job_code j with
  | sunrise_job func _ | sunset_job func _ | localtime_job func _ => func
  end.

Module Callback.

(** [namedtuple("Callback", ["datetime", "callable"])].  [serial] is not a
    field of the tuple: it numbers the tuple objects in the order of their
    creation, so that one can speak of "the same entry". *)
Record t := {
  serial : nat;
  datetime : Z;
  callable : Job
}.

(** [a == b] on the tuples: equal [datetime]s and the same function object. *)
Definition eqb (a b : t) : bool :=
  (datetime a =? datetime b) && Nat.eqb (job_id (callable a)) (job_id (callable b)).

End Callback.

(** [l.remove(x)]: without the first element equal to [x]; [None] stands for
    the [ValueError] of a list with no such element. *)
Fixpoint list_remove (x : Callback.t) (l : list Callback.t) : option (list Callback.t) :=
  match l with
  | [] => None
  | y :: rest =>
      if Callback.eqb x y then Some rest
      else match list_remove x rest with
           | Some rest' => Some (y :: rest')
           | None => None
           end
  end.

(** ** A location and its scheduler thread *)

Record Location := {
  (* attributes of the object *)
  _sun : Sun;
  _running : bool;
  _pending_callbacks : list Callback.t;
  (* the scheduler thread inside [_run_scheduler]: the local [now], what is
     left of the copy the [for] loop walks, and the entry whose job is being
     executed, if any *)
  loop_now : datetime;
  loop_rest : list Callback.t;
  loop_call : option Callback.t;
  (* [self._scheduler_thread.is_alive()] *)
  thread_alive : bool;
  (* bookkeeping: the number of objects created so far, the serials of the
     entries whose job was called, the calls of decorated functions, and the
     exceptions printed by the loop *)
  created : nat;
  invoked : list nat;
  func_calls : list string;
  printed : list pyexc
}.

(** [Location(lat, lon)] with a resolvable timezone: nothing pending, the
    scheduler started. *)
Definition Location_init (sun : Sun) : Location :=
  {| _sun := sun; _running := true; _pending_callbacks := [];
     loop_now := 0; loop_rest := []; loop_call := None; thread_alive := true;
     created := 0; invoked := []; func_calls := []; printed := [] |}.

(** [self._pending_callbacks.append(Callback(when, job))] *)
Definition append_callback (self : Location) (when : datetime) (job : Job) : Location :=
  {| _sun := _sun self; _running := _running self;
     _pending_callbacks :=
       _pending_callbacks self
         ++ [ {| Callback.serial := created self; Callback.datetime := when;
                 Callback.callable := job |} ];
     loop_now := loop_now self; loop_rest := loop_rest self; loop_call := loop_call self;
     thread_alive := thread_alive self;
     created := S (created self); invoked := invoked self;
     func_calls := func_calls self; printed := printed self |}.

(** A new function object [job]. *)
Definition new_job (self : Location) (code : closure) : Location * Job :=
  ({| _sun := _sun self; _running := _running self;
      _pending_callbacks := _pending_callbacks self;
      loop_now := loop_now self; loop_rest := loop_rest self; loop_call := loop_call self;
      thread_alive := thread_alive self;
      created := S (created self); invoked := invoked self;
      func_calls := func_calls self; printed := printed self |},
   {| job_id := created self; job_code := code |}).

(** ** The decorators

    [now] is what [datetime.now(self._timezone)] returns in the call.  A
    decorator whose call of the sun library raises ends there, with the
    exception, before anything is appended. *)

Definition on_sunrise (offset : option timedelta) (func : string) (now : datetime)
    (self : Location) : Location * result unit :=
  let effective_offset := or_timedelta offset in
  let '(self, job) := new_job self (sunrise_job func effective_offset) in
  (* Schedule first event *)
  let noon_today := combine (date_of now) noon in
  match get_sunrise_time (_sun self) noon_today with
  | Raise e => (self, Raise e)
  | Ok sunrise_today =>
      let next_event_time := sunrise_today + effective_offset in
      if next_event_time <=? now then
        let noon_tomorrow := combine (date_of now + 1) noon in
        match get_sunrise_time (_sun self) noon_tomorrow with
        | Raise e => (self, Raise e)
        | Ok sunrise_tomorrow =>
            (append_callback self (sunrise_tomorrow + effective_offset) job, Ok tt)
        end
      else (append_callback self next_event_time job, Ok tt)
  end.

Definition on_sunset (offset : option timedelta) (func : string) (now : datetime)
    (self : Location) : Location * result unit :=
  let effective_offset := or_timedelta offset in
  let '(self, job) := new_job self (sunset_job func effective_offset) in
  (* Schedule first event *)
  let noon_today := combine (date_of now) noon in
  match get_sunset_time (_sun self) noon_today with
  | Raise e => (self, Raise e)
  | Ok sunset_today =>
      let next_event_time := sunset_today + effective_offset in
      if next_event_time <=? now then
        let noon_tomorrow := combine (date_of now + 1) noon in
        match get_sunset_time (_sun self) noon_tomorrow with
        | Raise e => (self, Raise e)
        | Ok sunset_tomorrow =>
            (append_callback self (sunset_tomorrow + effective_offset) job, Ok tt)
        end
      else (append_callback self next_event_time job, Ok tt)
  end.

(** [on_localtime] calls nothing that raises. *)
Definition on_localtime (target_time : time) (func : string) (now : datetime)
    (self : Location) : Location :=
  let '(self, job) := new_job self (localtime_job func target_time) in
  (* Schedule first event *)
  let next_event_time := combine (date_of now) target_time in
  let next_event_time :=
    if next_event_time <=? now then combine (date_of now + 1) target_time
    else next_event_time in
  append_callback self next_event_time job.

(** ** The scheduler thread and the jobs it runs *)

(** Updates of the scheduler thread's part of the state. *)
Definition with_loop (self : Location) (pending : list Callback.t) (now : datetime)
    (rest : list Callback.t) (call : option Callback.t) : Location :=
  {| _sun := _sun self; _running := _running self;
     _pending_callbacks := pending;
     loop_now := now; loop_rest := rest; loop_call := call;
     thread_alive := thread_alive self;
     created := created self; invoked := invoked self;
     func_calls := func_calls self; printed := printed self |}.

Definition log_call (self : Location) (cb : Callback.t) : Location :=
  {| _sun := _sun self; _running := _running self;
     _pending_callbacks := _pending_callbacks self;
     loop_now := loop_now self; loop_rest := loop_rest self; loop_call := loop_call self;
     thread_alive := thread_alive self;
     created := created self; invoked := invoked self ++ [Callback.serial cb];
     func_calls := func_calls self ++ [func_of (Callback.callable cb)];
     printed := printed self |}.

(** [print(f"Error executing scheduled callback: {e}")] *)
Definition print_error (self : Location) (e : pyexc) : Location :=
  {| _sun := _sun self; _running := _running self;
     _pending_callbacks := _pending_callbacks self;
     loop_now := loop_now self; loop_rest := loop_rest self; loop_call := loop_call self;
     thread_alive := thread_alive self;
     created := created self; invoked := invoked self;
     func_calls := func_calls self; printed := printed self ++ [e] |}.

(** [stop()]: the flag the [while] loop tests (the join is not modelled). *)
Definition stop (self : Location) : Location :=
  {| _sun := _sun self; _running := false;
     _pending_callbacks := _pending_callbacks self;
     loop_now := loop_now self; loop_rest := loop_rest self; loop_call := loop_call self;
     thread_alive := thread_alive self;
     created := created self; invoked := invoked self;
     func_calls := func_calls self; printed := printed self |}.

(** What a [job] does once [func()] has returned: "Schedule for next day".
    [now] is what [datetime.now(self._timezone)] returns inside the job.  An
    exception of the sun library leaves the job before the append; the loop,
    which called the job inside its [try], prints it. *)
Definition job_reschedule (job : Job) (now : datetime) (self : Location) : Location :=
  match job_code job with
  | sunrise_job _ effective_offset =>
      let tomorrow_date := date_of now + 1 in
      let noon_tomorrow := combine tomorrow_date noon in
      match get_sunrise_time (_sun self) noon_tomorrow with
      | Ok next_sunrise => append_callback self (next_sunrise + effective_offset) job
      | Raise e => print_error self e
      end
  | sunset_job _ effective_offset =>
      let tomorrow_date := date_of now + 1 in
      let noon_tomorrow := combine tomorrow_date noon in
      match get_sunset_time (_sun self) noon_tomorrow with
      | Ok next_sunset => append_callback self (next_sunset + effective_offset) job
      | Raise e => print_error self e
      end
  | localtime_job _ target_time =>
      let tomorrow := date_of now + 1 in
      let next_event_dt := combine tomorrow target_time in
      append_callback self next_event_dt job
  end.

(** One round of the [while] loop begins: [now] is read and the [for] loop
    gets its copy of the list.  (Nothing happens unless the thread is alive,
    at the top of the loop, and [_running] is set.) *)
Definition loop_begin (now : datetime) (self : Location) : Location :=
  match loop_rest self, loop_call self with
  | [], None =>
      if _running self && thread_alive self
      then with_loop self (_pending_callbacks self) now (_pending_callbacks self) None
      else self
  | _, _ => self
  end.

(** The [for] loop takes the next entry [cb] of its copy.  When it is due it
    is removed from the list and [cb.callable()] is called, which calls
    [func()]; a [ValueError] of [remove] is caught and printed. *)
Definition loop_next (self : Location) : Location :=
  match loop_call self, loop_rest self with
  | None, cb :: rest =>
      if loop_now self >=? Callback.datetime cb then
        match list_remove cb (_pending_callbacks self) with
        | Some pending =>
            log_call (with_loop self pending (loop_now self) rest (Some cb)) cb
        | None =>
            print_error
              (with_loop self (_pending_callbacks self) (loop_now self) rest None)
              (Exception "ValueError")
        end
      else with_loop self (_pending_callbacks self) (loop_now self) rest None
  | _, _ => self
  end.

(** The call [func()] inside the running job ends, returning or raising an
    [Exception].  When it raised, the exception leaves the job and is printed
    by the loop; when it returned, the job schedules its next day. *)
Definition job_return (func_result : result unit) (now : datetime) (self : Location) : Location :=
  match loop_call self with
  | Some cb =>
      let self := with_loop self (_pending_callbacks self) (loop_now self) (loop_rest self) None in
      match func_result with
      | Raise e => print_error self e
      | Ok _ => job_reschedule (Callback.callable cb) now self
      end
  | None => self
  end.

(** The call [func()] inside the running job raises an exception that is not
    an [Exception] ([SystemExit], [KeyboardInterrupt]).  [except Exception]
    does not catch it: it leaves [_run_scheduler], nothing is printed by the
    loop, what was left of the round is not walked, and the thread ends. *)
Definition job_exit (self : Location) : Location :=
  match loop_call self with
  | Some _ =>
      {| _sun := _sun self; _running := _running self;
         _pending_callbacks := _pending_callbacks self;
         loop_now := loop_now self; loop_rest := []; loop_call := None;
         thread_alive := false;
         created := created self; invoked := invoked self;
         func_calls := func_calls self; printed := printed self |}
  | None => self
  end.

(** Everything that can happen to a location: a decorator is applied (by any
    thread, at any moment), the scheduler thread moves, [stop] is called. *)
Inductive action :=
| OnSunrise (offset : option timedelta) (func : string) (now : datetime)
| OnSunset (offset : option timedelta) (func : string) (now : datetime)
| OnLocaltime (target_time : time) (func : string) (now : datetime)
| LoopBegin (now : datetime)
| LoopNext
| JobReturn (func_result : result unit) (now : datetime)
| JobExit
| Stop.

Definition step (self : Location) (a : action) : Location :=
  match a with
  | OnSunrise offset func now => fst (on_sunrise offset func now self)
  | OnSunset offset func now => fst (on_sunset offset func now self)
  | OnLocaltime target_time func now => on_localtime target_time func now self
  | LoopBegin now => loop_begin now self
  | LoopNext => loop_next self
  | JobReturn func_result now => job_return func_result now self
  | JobExit => job_exit self
  | Stop => stop self
  end.

Definition run (self : Location) (actions : list action) : Location :=
  fold_left step actions self.

(* ===================================================================== *)
(** * Part III: notions used in the statements                            *)
(* ===================================================================== *)

(** ** Dispatch *)

(** A manager after a history of registrations, starting from a new one. *)
Definition manager_of (L : PyLib) (history : list (Callable * pyval)) : SubscriberManager.t :=
  fold_left
    (fun self '(callback, payload_filter) =>
       fst (SubscriberManager.add_subscriber self callback payload_filter))
    history (SubscriberManager.__init__ L).

(** The subscriber passes its filter: it has none, or the converted payload
    equals it. *)
Definition passes (converted_payload : pyval) (s : Subscriber) : bool :=
  is_none (payload_filter s) || py_eq converted_payload (payload_filter s).

(** The call a subscriber gets: the converted payload when a [datatype] was
    recorded for it, no argument otherwise. *)
Definition call_of (converted_payload : pyval) (s : Subscriber) : event :=
  Call (callback s)
       (match datatype s with None => [] | Some _ => [converted_payload] end).

Definition calls_for (converted_payload : pyval) (subscribers : list Subscriber) : list event :=
  map (call_of converted_payload) (List.filter (passes converted_payload) subscribers).

(** What a dispatch of [payload] consists of when every callback returns:
    one conversion per type that has subscribers, then the calls of the
    subscribers of that type that pass their filter. *)
Fixpoint plan (convs : list (pytype * SubscriberManager.converter)) (payload : bytes)
    (items : list (pytype * list Subscriber)) : list event :=
  match items with
  | [] => []
  | (ty, subscribers) :: rest =>
      match subscribers with
      | [] => plan convs payload rest
      | _ :: _ =>
          match dict_lookup ty convs with
          | None => LogError ty (Exception "KeyError") :: plan convs payload rest
          | Some convert =>
              match convert payload with
              | Raise e => Convert ty :: LogError ty e :: plan convs payload rest
              | Ok v => Convert ty :: calls_for v subscribers ++ plan convs payload rest
              end
          end
      end
  end.

(** The exception an event ends with, if it is a call that raises. *)
Definition raised (ev : event) : option pyexc :=
  match ev with
  | Call cb args => match cb_call cb args with Raise e => Some e | Ok _ => None end
  | _ => None
  end.

(** A sequence of events cut right after the first call that raises. *)
Fixpoint until_raise (events : list event) : list event * result unit :=
  match events with
  | [] => ([], Ok tt)
  | ev :: rest =>
      match raised ev with
      | Some e => ([ev], Raise e)
      | None => let '(trace, r) := until_raise rest in (ev :: trace, r)
      end
  end.

(** How often the converter of [ty] is called in a trace. *)
Definition conversions (ty : pytype) (trace : list event) : nat :=
  length (List.filter
            (fun ev => match ev with Convert ty' => bool_decide (ty = ty') | _ => false end)
            trace).

(** The types a new manager has converters for. *)
Definition builtin_types : list pytype := [Plain Cbytes; Plain Cdict; Plain Cstr].

(** ** Registration *)

(** The type [add_subscriber] takes the callback to declare: none without a
    parameter and none for a parameter annotated [None]; [bytes] for a
    parameter without annotation; the annotation (a generic replaced by its
    origin) otherwise. *)
Definition callback_type (callback : Callable) : option pytype :=
  match cb_signature callback with
  | Ok [Empty] => Some (Plain Cbytes)
  | Ok [Annot (Alias origin)] => Some (Plain origin)
  | Ok [Annot ty] => Some ty
  | _ => None
  end.

(** The class of the filter when there is one, [bytes] otherwise. *)
Definition filter_type_or_bytes (payload_filter : pyval) : pytype :=
  if is_none payload_filter then Plain Cbytes else class_of payload_filter.

(** The type under which [add_subscriber] files the subscriber: the declared
    type when there is one and it counts as true, otherwise the class of the
    filter, otherwise [bytes]. *)
Definition effective_type (callback : Callable) (payload_filter : pyval) : pytype :=
  match callback_type callback with
  | Some ct => if truthy ct then ct else filter_type_or_bytes payload_filter
  | None => filter_type_or_bytes payload_filter
  end.





(** A registration from which [add_subscriber] returns whatever the manager
    holds: the callable has a [__name__] and a signature, and the type it
    would go under can be hashed. *)
Definition well_formed (callback : Callable) (payload_filter : pyval) : Prop :=
  cb_name callback <> None
  /\ (exists params, cb_signature callback = Ok params)
  /\ hashable (effective_type callback payload_filter) = true.

(** ** Subscriptions *)

(** How often [subscribe] was called with [topic]. *)
Definition subscribed (topic : string) (client : Client) : nat :=
  length (List.filter (String.eqb topic) (subscribe_calls client)).

Definition topic_of (call : string * Callable * pyval) : string :=
  match call with (topic, _, _) => topic end.

(** ** Days and occurrences

    The statements about the scheduler count days and times of day in their
    own terms: microseconds, days of 24 hours, midday at 12 hours. *)
Definition microseconds_a_day : Z := 24 * 60 * 60 * 1000000.

(** The number of the day an instant falls on. *)
Definition day_of (instant : Z) : Z := instant / microseconds_a_day.

(** The instant that is [time_of_day] after midnight of day [d]. *)
Definition instant_at (d : Z) (time_of_day : Z) : Z := d * microseconds_a_day + time_of_day.

Definition midday : Z := 12 * 60 * 60 * 1000000.

(** The offset a decorator was given: none is no shift. *)
Definition given_offset (offset : option Z) : Z :=
  match offset with
  | Some d => d
  | None => 0
  end.

(** The instant at which a job is to fire on day [d]: the sunrise or the
    sunset of that day, asked of the sun library at midday, plus the offset;
    or the target time on that day.  There is none when the sun library
    raises. *)
Definition occurrence (sun : Sun) (code : closure) (d : Z) : result Z :=
  match code with
  | sunrise_job _ offset =>
      match get_sunrise_time sun (instant_at d midday) with
      | Ok sunrise => Ok (sunrise + offset)
      | Raise e => Raise e
      end
  | sunset_job _ offset =>
      match get_sunset_time sun (instant_at d midday) with
      | Ok sunset => Ok (sunset + offset)
      | Raise e => Raise e
      end
  | localtime_job _ target_time => Ok (instant_at d target_time)
  end.

(** The entry a decorator appends for the job it makes: the job is the next
    new object of the location and the entry the one after it. *)
Definition first_entry (self : Location) (code : closure) (when : Z) : Callback.t :=
  {| Callback.serial := S (created self);
     Callback.datetime := when;
     Callback.callable := {| job_id := created self; job_code := code |} |}.

(** What the registration of a job with [code] at [now] is to do, [after]
    being the location it leaves and [r] the way it ends: today's occurrence
    is scheduled when it is strictly after [now], tomorrow's when today's is
    at or before [now]; when the occurrence that is needed cannot be
    computed, the registration ends with the exception of the sun library
    and schedules nothing. *)
Definition first_fire (self : Location) (now : Z) (code : closure)
    (after : Location) (r : result unit) : Prop :=
  (forall today,
      occurrence (_sun self) code (day_of now) = Ok today ->
      now < today ->
      _pending_callbacks after = _pending_callbacks self ++ [first_entry self code today]
      /\ r = Ok tt)
  /\ (forall today tomorrow,
        occurrence (_sun self) code (day_of now) = Ok today ->
        today <= now ->
        occurrence (_sun self) code (day_of now + 1) = Ok tomorrow ->
        _pending_callbacks after
        = _pending_callbacks self ++ [first_entry self code tomorrow]
        /\ r = Ok tt)
  /\ (forall e,
        occurrence (_sun self) code (day_of now) = Raise e ->
        _pending_callbacks after = _pending_callbacks self /\ r = Raise e)
  /\ (forall today e,
        occurrence (_sun self) code (day_of now) = Ok today ->
        today <= now ->
        occurrence (_sun self) code (day_of now + 1) = Raise e ->
        _pending_callbacks after = _pending_callbacks self /\ r = Raise e).

Definition serials (l : list Callback.t) : list nat := Callback.serial <$> l.
Definition job_ids (l : list Callback.t) : list nat :=
  (fun cb => job_id (Callback.callable cb)) <$> l.

(** ** What holds of a location at every moment

    The entries of the list are distinct objects and belong to distinct jobs
    (the job that is being executed has none); every object was created
    before now; an entry whose job has been called is no longer in the list
    and was called once; what is left of the copy the loop walks is still in
    the list. *)
Record consistent (self : Location) : Prop := {
  serials_nodup : NoDup (serials (_pending_callbacks self));
  jobs_nodup :
    NoDup (job_ids (_pending_callbacks self ++ option_list (loop_call self)));
  objects_created :
    forall cb, cb ∈ _pending_callbacks self ++ option_list (loop_call self) ->
               (Callback.serial cb < created self)%nat
               /\ (job_id (Callback.callable cb) < created self)%nat;
  invoked_created : forall n, n ∈ invoked self -> (n < created self)%nat;
  invoked_nodup : NoDup (invoked self);
  invoked_removed :
    forall n, n ∈ invoked self -> n ∉ serials (_pending_callbacks self);
  rest_pending : forall cb, cb ∈ loop_rest self -> cb ∈ _pending_callbacks self;
  rest_nodup : NoDup (serials (loop_rest self));
  call_invoked :
    forall cb, loop_call self = Some cb -> Callback.serial cb ∈ invoked self
}.

(* ===================================================================== *)
(** * Part IV: concrete inputs                                            *)
(* ===================================================================== *)

(** ** The library functions on the payloads of the examples

    The theorems below hold for every [PyLib].  The examples run with this
    one: strict UTF-8 decoding, and [json.loads] on the two documents that
    occur in them, [{}] and the one of [doc_x1]; no other payload of the
    examples is converted to a [dict]. *)

(** One byte of UTF-8: [need] continuation bytes are still expected, the next
    of them within [[lo, hi]]. *)
Definition utf8_next (st : option (nat * N * N)) (b : byte) : option (nat * N * N) :=
  let x := Byte.to_N b in
  match st with
  | None => None
  | Some (O, _, _) =>
      if (x <? 128)%N then Some (O, 0, 0)%N
      else if (194 <=? x)%N && (x <=? 223)%N then Some (1%nat, 128, 191)%N
      else if (x =? 224)%N then Some (2%nat, 160, 191)%N
      else if (x =? 237)%N then Some (2%nat, 128, 159)%N
      else if (225 <=? x)%N && (x <=? 239)%N then Some (2%nat, 128, 191)%N
      else if (x =? 240)%N then Some (3%nat, 144, 191)%N
      else if (241 <=? x)%N && (x <=? 243)%N then Some (3%nat, 128, 191)%N
      else if (x =? 244)%N then Some (3%nat, 128, 143)%N
      else None
  | Some (S need, lo, hi) =>
      if (lo <=? x)%N && (x <=? hi)%N then Some (need, 128, 191)%N else None
  end.

Definition utf8_valid (payload : bytes) : bool :=
  match fold_left utf8_next payload (Some (O, 0, 0)%N) with
  | Some (O, _, _) => true
  | _ => false
  end.

Definition decode_utf8 (payload : bytes) : result string :=
  if utf8_valid payload then Ok (string_of_list_byte payload)
  else Raise (Exception "UnicodeDecodeError").

(** The payload [{"x":1}]. *)
Definition doc_x1 : bytes := [x7b; x22; x78; x22; x3a; x31; x7d].

Definition example_json_loads (payload : bytes) : result pyval :=
  if bytes_eqb payload doc_x1 then Ok (VDict [("x"%string, VInt 1)])
  else if bytes_eqb payload [x7b; x7d] then Ok (VDict [])
  else Raise (Exception "JSONDecodeError").

Definition example_lib : PyLib :=
  {| bytes_decode_utf8 := decode_utf8; json_loads := example_json_loads |}.

Definition b (s : string) : bytes := list_byte_of_string s.

(** ** Callbacks *)

(** Bodies that return, and bodies that raise [RuntimeError]. *)
Definition returns : list pyval -> result unit := fun _ => Ok tt.
Definition raises : list pyval -> result unit := fun _ => Raise (Exception "RuntimeError").

(** A call of a function of [n] positional parameters: the body runs when
    [n] arguments are given, [TypeError] is raised otherwise. *)
Definition with_arity (n : nat) (body : list pyval -> result unit)
  : list pyval -> result unit :=
  fun args => if Nat.eqb (length args) n then body args else Raise (Exception "TypeError").

(** [def name(): ...], [def name(payload): ...], [def name(payload: ty): ...],
    [def name(payload: None): ...] and [def name(topic, payload): ...]. *)
Definition def0 (name : string) (body : list pyval -> result unit) : Callable :=
  {| cb_name := Some name; cb_signature := Ok []; cb_call := with_arity 0 body |}.
Definition def1 (name : string) (body : list pyval -> result unit) : Callable :=
  {| cb_name := Some name; cb_signature := Ok [Empty]; cb_call := with_arity 1 body |}.
Definition def1_typed (name : string) (ty : pytype) (body : list pyval -> result unit) : Callable :=
  {| cb_name := Some name; cb_signature := Ok [Annot ty]; cb_call := with_arity 1 body |}.
Definition def1_none (name : string) (body : list pyval -> result unit) : Callable :=
  {| cb_name := Some name; cb_signature := Ok [AnnotNone]; cb_call := with_arity 1 body |}.

(** [functools.partial(f)] of a function [f] of [n] parameters without
    annotation: the signature of [f], and no [__name__]. *)
Definition partial (n : nat) (body : list pyval -> result unit) : Callable :=
  {| cb_name := None; cb_signature := Ok (repeat Empty n); cb_call := with_arity n body |}.

(** A location whose sun rises at 08:17 and sets at 16:02 every day. *)
Definition hour : timedelta := 3600 * 1000000.
Definition minute : timedelta := 60 * 1000000.
Definition example_sun : Sun :=
  {| get_sunrise_time :=
       fun at_date => Ok (combine (date_of at_date) (8 * hour + 17 * minute));
     get_sunset_time :=
       fun at_date => Ok (combine (date_of at_date) (16 * hour + 2 * minute)) |}.

(** A location beyond the polar circle, where the sun rises and sets at the
    same hours on day 0 and does neither from day 1 on. *)
Definition polar_sun : Sun :=
  {| get_sunrise_time :=
       fun at_date =>
         if date_of at_date <=? 0 then Ok (combine (date_of at_date) (8 * hour + 17 * minute))
         else Raise (Exception "SunTimeException");
     get_sunset_time :=
       fun at_date =>
         if date_of at_date <=? 0 then Ok (combine (date_of at_date) (16 * hour + 2 * minute))
         else Raise (Exception "SunTimeException") |}.

(** ** Managers of the examples *)

(** [f] raises; [g] listens on the same type as [f], [h] on another one. *)
Definition manager_fgh : SubscriberManager.t :=
  manager_of example_lib
    [ (def1 "f" raises, VNone);
      (def1 "g" returns, VNone);
      (def1_typed "h" (Plain Cstr) returns, VNone) ].

(** [f] raises on [bytes]; [h] listens on [str]. *)
Definition manager_fh : SubscriberManager.t :=
  manager_of example_lib
    [ (def1 "f" raises, VNone);
      (def1_typed "h" (Plain Cstr) returns, VNone) ].


(** [s] filters on [on], [g] takes every text, [z] takes no argument and
    filters on [off]. *)
Definition manager_sgz : SubscriberManager.t :=
  manager_of example_lib
    [ (def1_typed "s" (Plain Cstr) returns, VStr "on");
      (def1_typed "g" (Plain Cstr) returns, VNone);
      (def0 "z" returns, VStr "off") ].

(** A [bytes] subscriber and a [str] subscriber. *)
Definition manager_gs : SubscriberManager.t :=
  manager_of example_lib
    [ (def1 "g" returns, VNone);
      (def1_typed "s" (Plain Cstr) returns, VNone) ].


(** ** Runs of a location *)

(** [f] is to run at 10:00 every day; it is registered at 08:00 of day 0,
    and the scheduler wakes up at 10:05. *)
Definition ten : time := 10 * hour.
Definition at_ten : list action :=
  [ OnLocaltime ten "f" (8 * hour); LoopBegin (ten + 5 * minute) ].

(** The entry of [f] and the state in which the loop is about to take it. *)
Definition entry_f : Callback.t :=
  {| Callback.serial := 1; Callback.datetime := ten;
     Callback.callable := {| job_id := 0; job_code := localtime_job "f" ten |} |}.
Definition location_at_ten : Location := run (Location_init example_sun) at_ten.

(** [f] is to run at sunrise where the sun rises on day 0 only; it is
    registered at 07:00 of day 0, the scheduler wakes up at 09:00 and is
    about to take the entry, which is due since 08:17. *)
Definition entry_polar : Callback.t :=
  {| Callback.serial := 1; Callback.datetime := 8 * hour + 17 * minute;
     Callback.callable := {| job_id := 0; job_code := sunrise_job "f" 0 |} |}.
Definition location_polar : Location :=
  run (Location_init polar_sun) [ OnSunrise None "f" (7 * hour); LoopBegin (9 * hour) ].

(** The loop takes the entry, and [f] raises. *)
Definition f_raises : list action :=
  at_ten ++ [ LoopNext; JobReturn (Raise (Exception "RuntimeError")) (ten + 5 * minute) ].


(* ===================================================================== *)
(** * Part IV-b: notions for the further properties                       *)
(* ===================================================================== *)

(** ** Registrations a manager keeps *)

(** The checks of [add_subscriber] on a new manager: a signature of at most
    one parameter, a filter of the declared type if one is declared, a type
    with a converter. *)
Definition accepted (callback : Callable) (payload_filter : pyval) : bool :=
  match cb_signature callback with
  | Raise _ => false
  | Ok params =>
      (length params <=? 1)%nat
      && (is_none payload_filter
          || match callback_type callback with
             | Some ct => bool_decide (class_of payload_filter = ct)
             | None => true
             end)
      && bool_decide (effective_type callback payload_filter ∈ builtin_types)
  end.

(** The dict that [add_subscriber] appends for a registration. *)
Definition subscriber_of (registration : Callable * pyval) : Subscriber :=
  {| callback := fst registration;
     datatype := callback_type (fst registration);
     payload_filter := snd registration |}.

(** The registrations of a history that are accepted and filed under [ty],
    in the order of the history. *)
Definition registered (ty : pytype) (history : list (Callable * pyval)) : list Subscriber :=
  map subscriber_of
    (List.filter
       (fun registration =>
          accepted (fst registration) (snd registration)
          && bool_decide (effective_type (fst registration) (snd registration) = ty))
       history).

(** A manager after further registrations. *)
Definition extend (self : SubscriberManager.t) (history : list (Callable * pyval))
  : SubscriberManager.t :=
  fold_left
    (fun self '(callback, payload_filter) =>
       fst (SubscriberManager.add_subscriber self callback payload_filter))
    history self.

(** ** Registrations by topic *)

(** The registrations of a sequence of module-level calls that are made on
    [topic], in order. *)
Definition history_for (topic : string) (calls : list (string * Callable * pyval))
  : list (Callable * pyval) :=
  map (fun call => (snd (fst call), snd call))
    (List.filter (fun call => String.eqb (topic_of call) topic) calls).

(** The topics of a sequence of calls that are not yet [known], each at its
    first occurrence. *)
Fixpoint new_topics (known : gset string) (calls : list (string * Callable * pyval))
  : list string :=
  match calls with
  | [] => []
  | call :: rest =>
      if decide (topic_of call ∈ known) then new_topics known rest
      else topic_of call :: new_topics ({[ topic_of call ]} ∪ known) rest
  end.

(** ** One round of the scheduler loop *)

(** [now >= cb.datetime] *)
Definition due (now : datetime) (cb : Callback.t) : bool :=
  now >=? Callback.datetime cb.

(** The moves of the scheduler thread in one pass of the [for] loop over
    [copy], no other thread interfering: each entry is taken, and the job of
    a due one runs to its end.  [outcome cb] is how [func()] ends in the job
    of [cb], returning or raising an [Exception], and what the clock shows
    when the job reads it. *)
Fixpoint round_actions (now : datetime) (outcome : Callback.t -> result unit * datetime)
    (copy : list Callback.t) : list action :=
  match copy with
  | [] => []
  | cb :: rest =>
      (if due now cb
       then [LoopNext; JobReturn (fst (outcome cb)) (snd (outcome cb))]
       else [LoopNext])
      ++ round_actions now outcome rest
  end.

(** The entries appended by the jobs of the entries [fired], the first new
    object being number [next]: one for each job whose [func()] returned and
    that has an occurrence on the day after the one it read the clock on. *)
Fixpoint rescheduled (sun : Sun) (outcome : Callback.t -> result unit * datetime)
    (next : nat) (fired : list Callback.t) : list Callback.t :=
  match fired with
  | [] => []
  | cb :: rest =>
      match fst (outcome cb),
            occurrence sun (job_code (Callback.callable cb)) (day_of (snd (outcome cb)) + 1)
      with
      | Ok _, Ok when =>
          {| Callback.serial := next;
             Callback.datetime := when;
             Callback.callable := Callback.callable cb |}
          :: rescheduled sun outcome (S next) rest
      | _, _ => rescheduled sun outcome next rest
      end
  end.

(** The exceptions of the jobs of the entries [fired]: the one of [func()],
    or else the one of the sun library. *)
Fixpoint raised_by (sun : Sun) (outcome : Callback.t -> result unit * datetime)
    (fired : list Callback.t) : list pyexc :=
  match fired with
  | [] => []
  | cb :: rest =>
      match fst (outcome cb),
            occurrence sun (job_code (Callback.callable cb)) (day_of (snd (outcome cb)) + 1)
      with
      | Raise e, _ => e :: raised_by sun outcome rest
      | Ok _, Raise e => e :: raised_by sun outcome rest
      | Ok _, Ok _ => raised_by sun outcome rest
      end
  end.


(** ** Further runs of a location *)

(** [f] is registered at 08:00 for 10:00, and the loop is between two
    rounds. *)
Definition location_registered : Location :=
  run (Location_init example_sun) [OnLocaltime ten "f" (8 * hour)].

(** Every function returns, and its job reads the clock at 10:05. *)
Definition all_return : Callback.t -> result unit * datetime :=
  fun _ => (Ok tt, ten + 5 * minute).

(** The loop has taken the entry of [f], whose job is being executed. *)
Definition location_calling_f : Location := run location_at_ten [LoopNext].


(** What would be a round at 10:05, and a registration of [g]. *)
Definition round_at_ten : list action :=
  [ LoopBegin (ten + 5 * minute); LoopNext; JobReturn (Ok tt) (ten + 5 * minute);
    OnLocaltime ten "g" (ten + 6 * minute); LoopBegin (ten + 7 * minute); LoopNext ].

(* ===================================================================== *)
(** * Part V: the dispatcher                                              *)
(* ===================================================================== *)

Section Dispatch.

Import SubscriberManager.

Lemma until_raise_app (a b : list event) :
  until_raise (a ++ b) =
  match until_raise a with
  | (trace, Raise e) => (trace, Raise e)
  | (trace, Ok _) => let '(trace', r) := until_raise b in (trace ++ trace', r)
  end.
Proof.
  induction a as [|ev a IH]; simpl.
  - destruct (until_raise b); reflexivity.
  - destruct (raised ev); [reflexivity|].
    rewrite IH. destruct (until_raise a) as [t [u|e]]; [|reflexivity].
    destruct (until_raise b); reflexivity.
Qed.



(** The inner loop makes the calls of the subscribers that pass their filter,
    in order, up to the first one that raises. *)
Lemma notify_subscribers_until_raise (v : pyval) (subscribers : list Subscriber) :
  notify_subscribers v subscribers = until_raise (calls_for v subscribers).
Proof.
  unfold calls_for.
  induction subscribers as [|s rest IH]; simpl; [reflexivity|].
  unfold passes at 1, py_ne.
  destruct (is_none (payload_filter s)); simpl.
  - unfold call_of at 1.
    destruct (cb_call (callback s) _) as [u|e]; [|reflexivity].
    rewrite IH. reflexivity.
  - destruct (py_eq v (payload_filter s)); simpl; [|exact IH].
    unfold call_of at 1.
    destruct (cb_call (callback s) _) as [u|e]; [|reflexivity].
    rewrite IH. reflexivity.
Qed.

(** The outer loop follows the plan up to the first call that raises. *)
Lemma notify_items_until_raise (convs : list (pytype * converter)) (payload : bytes)
    (items : list (pytype * list Subscriber)) :
  notify_items convs payload items = until_raise (plan convs payload items).
Proof.
  induction items as [|[ty subscribers] rest IH]; simpl; [reflexivity|].
  destruct subscribers as [|s subscribers]; [exact IH|].
  remember (s :: subscribers) as subs eqn:Hsubs.
  destruct (dict_lookup ty convs) as [convert|].
  - destruct (convert payload) as [v|e].
    + rewrite notify_subscribers_until_raise.
      change (until_raise (Convert ty :: calls_for v subs ++ plan convs payload rest))
        with (let '(trace, r) := until_raise (calls_for v subs ++ plan convs payload rest)
              in (Convert ty :: trace, r)).
      rewrite until_raise_app.
      destruct (until_raise (calls_for v subs)) as [t [u|e]]; [|reflexivity].
      rewrite IH. destruct (until_raise (plan convs payload rest)). reflexivity.
    + rewrite IH. simpl. destruct (until_raise (plan convs payload rest)). reflexivity.
  - rewrite IH. simpl. destruct (until_raise (plan convs payload rest)). reflexivity.
Qed.

Lemma notify_until_raise (self : t) (payload : bytes) :
  notify self payload =
  until_raise (plan (converters self) payload (subscribers_by_type self)).
Proof. apply notify_items_until_raise. Qed.

End Dispatch.

(** ** Dictionaries *)

Lemma dict_lookup_set_eq {V : Type} (k : pytype) (v : V) (d : list (pytype * V)) :
  dict_lookup k (dict_set k v d) = Some v.
Proof.
  induction d as [|[k' v'] d IH]; simpl.
  - destruct (decide (k = k)); [reflexivity|contradiction].
  - destruct (decide (k = k')) as [->|Hne]; simpl.
    + destruct (decide (k' = k')); [reflexivity|contradiction].
    + destruct (decide (k = k')); [contradiction|exact IH].
Qed.

Lemma dict_lookup_set_ne {V : Type} (k k' : pytype) (v : V) (d : list (pytype * V)) :
  k <> k' -> dict_lookup k' (dict_set k v d) = dict_lookup k' d.
Proof.
  intros Hne. induction d as [|[k0 v0] d IH]; simpl.
  - destruct (decide (k' = k)); [congruence|reflexivity].
  - destruct (decide (k = k0)) as [->|Hk]; simpl.
    + destruct (decide (k' = k0)); [congruence|reflexivity].
    + destruct (decide (k' = k0)); [reflexivity|exact IH].
Qed.

Lemma dict_set_keys {V : Type} (k : pytype) (v : V) (d : list (pytype * V)) :
  dict_lookup k d <> None -> map fst (dict_set k v d) = map fst d.
Proof.
  induction d as [|[k' v'] d IH]; simpl; [congruence|].
  destruct (decide (k = k')); simpl; [reflexivity|].
  intros H. rewrite IH by exact H. reflexivity.
Qed.

Lemma dict_lookup_keys {V : Type} (k : pytype) (d : list (pytype * V)) :
  dict_lookup k d <> None <-> In k (map fst d).
Proof.
  induction d as [|[k' v'] d IH]; simpl; [tauto|].
  destruct (decide (k = k')) as [->|Hne].
  - split; [auto|congruence].
  - rewrite IH. split; [auto|]. intros [Heq|Hin]; [congruence|exact Hin].
Qed.


(** ** Registration, unfolded *)

Section Registration.

Import SubscriberManager.

Lemma is_none_true (v : pyval) : is_none v = true <-> v = VNone.
Proof. destruct v; simpl; split; congruence. Qed.

Lemma is_none_false (v : pyval) : is_none v = false <-> v <> VNone.
Proof. destruct v; simpl; split; congruence. Qed.

Lemma log_and_return_fst (self : t) (cb : Callable) (what : report) :
  fst (log_and_return self cb what) = self.
Proof. unfold log_and_return. destruct (cb_name cb); reflexivity. Qed.

Lemma log_and_return_snd (self : t) (cb : Callable) (what : report) :
  snd (log_and_return self cb what)
  = match cb_name cb with
    | Some _ => Ok what
    | None => Raise (Exception "AttributeError")
    end.
Proof. unfold log_and_return. destruct (cb_name cb); reflexivity. Qed.

(** [add_subscriber] in terms of [callback_type] and [effective_type]. *)
Lemma add_subscriber_unfold (self : t) (cb : Callable) (f : pyval) :
  add_subscriber self cb f =
  match cb_signature cb with
  | Raise e => (self, Raise e)
  | Ok params =>
      if (1 <? length params)%nat
      then log_and_return self cb (TooManyArguments (length params))
      else if negb (is_none f)
              && match callback_type cb with
                 | Some ct => negb (bool_decide (class_of f = ct))
                 | None => false
                 end
      then log_and_return self cb IncompatibleFilter
      else if negb (hashable (effective_type cb f))
      then (self, Raise (Exception "TypeError"))
      else match dict_lookup (effective_type cb f) (subscribers_by_type self) with
           | None => log_and_return self cb (UnsupportedType (effective_type cb f))
           | Some subscribers =>
               ({| subscribers_by_type :=
                     dict_set (effective_type cb f)
                       (subscribers ++ [ {| callback := cb;
                                           datatype := callback_type cb;
                                           payload_filter := f |} ])
                       (subscribers_by_type self);
                   converters := converters self |},
                Ok (Registered (effective_type cb f)))
           end
  end.
Proof.
  unfold add_subscriber, effective_type, callback_type, filter_type_or_bytes.
  destruct (cb_signature cb) as [params|e]; [|reflexivity].
  destruct params as [|[| |[c|origin|name truth can_hash]] [|a params]];
    simpl; try reflexivity;
    destruct (is_none f); try reflexivity;
    destruct truth; reflexivity.
Qed.

(** The cases of [add_subscriber]: it leaves the manager as it is, without
    registering, or it appends to the list of the effective type. *)
Lemma add_subscriber_cases (self : t) (cb : Callable) (f : pyval) :
  (fst (add_subscriber self cb f) = self
   /\ forall ty, snd (add_subscriber self cb f) <> Ok (Registered ty))
  \/ (exists params subscribers,
         cb_signature cb = Ok params
         /\ (length params <= 1)%nat
         /\ (f = VNone
             \/ forall ct, callback_type cb = Some ct -> class_of f = ct)
         /\ hashable (effective_type cb f) = true
         /\ dict_lookup (effective_type cb f) (subscribers_by_type self) = Some subscribers
         /\ add_subscriber self cb f
            = ({| subscribers_by_type :=
                    dict_set (effective_type cb f)
                      (subscribers ++ [ {| callback := cb;
                                          datatype := callback_type cb;
                                          payload_filter := f |} ])
                      (subscribers_by_type self);
                  converters := converters self |},
               Ok (Registered (effective_type cb f)))).
Proof.
  rewrite add_subscriber_unfold.
  destruct (cb_signature cb) as [params|e] eqn:Hsig.
  2: { left. split; [reflexivity|discriminate]. }
  destruct (1 <? length params)%nat eqn:Hlen.
  { left. rewrite log_and_return_fst, log_and_return_snd.
    split; [reflexivity|]. intros ty. destruct (cb_name cb); discriminate. }
  destruct (negb (is_none f) && _) eqn:Hfilter.
  { left. rewrite log_and_return_fst, log_and_return_snd.
    split; [reflexivity|]. intros ty. destruct (cb_name cb); discriminate. }
  destruct (hashable (effective_type cb f)) eqn:Hhash; cbn [negb].
  2: { left. split; [reflexivity|discriminate]. }
  destruct (dict_lookup (effective_type cb f) (subscribers_by_type self))
    as [subscribers|] eqn:Hsubs.
  2: { left. rewrite log_and_return_fst, log_and_return_snd.
       split; [reflexivity|]. intros ty. destruct (cb_name cb); discriminate. }
  right. exists params, subscribers.
  split; [reflexivity|]. split; [apply Nat.ltb_ge; exact Hlen|].
  split; [|split; [reflexivity|split; reflexivity]].
  destruct (is_none f) eqn:Hnone; [left; apply is_none_true; exact Hnone|].
  right. intros ct Hct. rewrite Hct in Hfilter. simpl in Hfilter.
  apply negb_false_iff, bool_decide_eq_true in Hfilter. exact Hfilter.
Qed.

(** [add_subscriber] returns for a well-formed registration, and raises for
    no other. *)
Lemma add_subscriber_returns (self : t) (cb : Callable) (f : pyval) :
  (well_formed cb f -> exists what, snd (add_subscriber self cb f) = Ok what)
  /\ (forall e, snd (add_subscriber self cb f) = Raise e -> ~ well_formed cb f).
Proof.
  assert (well_formed cb f -> exists what, snd (add_subscriber self cb f) = Ok what) as H.
  { intros (Hname & (params & Hsig) & Hhash).
    rewrite add_subscriber_unfold, Hsig, Hhash. cbn [negb].
    destruct (cb_name cb) as [name|] eqn:Ename; [|contradiction].
    repeat match goal with
           | |- context [if ?c then _ else _] => destruct c
           | |- context [match dict_lookup ?k ?d with _ => _ end] =>
               destruct (dict_lookup k d)
           end;
      rewrite ?log_and_return_snd, ?Ename; eexists; reflexivity. }
  split; [exact H|].
  intros e He Hwf. destruct (H Hwf) as [what Hwhat]. congruence.
Qed.

End Registration.

(** ** Managers reached from a new one *)

Section Reachable.

Import SubscriberManager.

Lemma add_subscriber_converters (self : t) (cb : Callable) (f : pyval) :
  converters (fst (add_subscriber self cb f)) = converters self.
Proof.
  destruct (add_subscriber_cases self cb f)
    as [[-> _]|(params & subscribers & _ & _ & _ & _ & _ & ->)]; reflexivity.
Qed.

Lemma add_subscriber_keys (self : t) (cb : Callable) (f : pyval) :
  map fst (subscribers_by_type (fst (add_subscriber self cb f)))
  = map fst (subscribers_by_type self).
Proof.
  destruct (add_subscriber_cases self cb f)
    as [[-> _]|(params & subscribers & _ & _ & _ & _ & Hsubs & ->)]; [reflexivity|].
  simpl. apply dict_set_keys. congruence.
Qed.

Lemma manager_of_snoc (L : PyLib) (history : list (Callable * pyval))
    (cb : Callable) (f : pyval) :
  manager_of L (history ++ [(cb, f)]) = fst (add_subscriber (manager_of L history) cb f).
Proof. unfold manager_of. rewrite fold_left_app. reflexivity. Qed.

Lemma manager_of_shape (L : PyLib) (history : list (Callable * pyval)) :
  map fst (subscribers_by_type (manager_of L history)) = builtin_types
  /\ converters (manager_of L history) = converters (__init__ L).
Proof.
  induction history as [|[cb f] history IH] using rev_ind.
  - split; reflexivity.
  - rewrite manager_of_snoc, add_subscriber_keys, add_subscriber_converters. exact IH.
Qed.

Lemma manager_of_converter (L : PyLib) (history : list (Callable * pyval)) (ty : pytype) :
  dict_lookup ty (subscribers_by_type (manager_of L history)) <> None ->
  dict_lookup ty (converters (manager_of L history)) <> None.
Proof.
  destruct (manager_of_shape L history) as [Hkeys Hconv].
  rewrite dict_lookup_keys, Hkeys, Hconv. simpl.
  intros [<-|[<-|[<-|[]]]]; discriminate.
Qed.

(** What a manager reached from a new one has recorded for a subscriber. *)
Lemma manager_of_subscribers (L : PyLib) (history : list (Callable * pyval))
    (ty : pytype) (subscribers : list Subscriber) (s : Subscriber) :
  dict_lookup ty (subscribers_by_type (manager_of L history)) = Some subscribers ->
  In s subscribers ->
  datatype s = callback_type (callback s)
  /\ (exists params, cb_signature (callback s) = Ok params /\ (length params <= 1)%nat)
  /\ (payload_filter s = VNone
      \/ forall ct, callback_type (callback s) = Some ct -> class_of (payload_filter s) = ct)
  /\ effective_type (callback s) (payload_filter s) = ty.
Proof.
  revert ty subscribers s.
  induction history as [|[cb f] history IH] using rev_ind; intros ty subscribers s.
  - unfold manager_of. simpl. intros Hl Hin. exfalso.
    repeat match type of Hl with
           | context [decide ?P] => destruct (decide P); [injection Hl as <-; exact Hin|]
           end.
    discriminate.
  - rewrite manager_of_snoc.
    destruct (add_subscriber_cases (manager_of L history) cb f)
      as [[-> _]|(params & olds & Hsig & Hlen & Hfilter & _ & Holds & ->)]; [apply IH|].
    simpl. destruct (decide (effective_type cb f = ty)) as [<-|Hne].
    + rewrite dict_lookup_set_eq. intros [= <-] Hin.
      apply in_app_or in Hin as [Hin|[<-|[]]].
      * exact (IH _ _ _ Holds Hin).
      * simpl. split; [reflexivity|]. split; [exists params; split; assumption|].
        split; [exact Hfilter|reflexivity].
    + rewrite dict_lookup_set_ne by exact Hne. apply IH.
Qed.

End Reachable.

Section DispatchClaims.

Import SubscriberManager.


End DispatchClaims.



(** ** Conversions *)

Section Conversions.

Import SubscriberManager.

Lemma conversions_app (ty : pytype) (a b' : list event) :
  conversions ty (a ++ b') = (conversions ty a + conversions ty b')%nat.
Proof. unfold conversions. rewrite List.filter_app, length_app. reflexivity. Qed.

Lemma conversions_calls_for (ty : pytype) (v : pyval) (subscribers : list Subscriber) :
  conversions ty (calls_for v subscribers) = 0%nat.
Proof.
  unfold calls_for, conversions.
  induction (List.filter (passes v) subscribers) as [|s l IH]; [reflexivity|exact IH].
Qed.

Lemma plan_app (convs : list (pytype * converter)) (payload : bytes)
    (items items' : list (pytype * list Subscriber)) :
  plan convs payload (items ++ items')
  = plan convs payload items ++ plan convs payload items'.
Proof.
  induction items as [|[ty subscribers] items IH]; simpl; [reflexivity|].
  destruct subscribers; [exact IH|].
  destruct (dict_lookup ty convs) as [convert|]; [destruct (convert payload)|];
    simpl; rewrite IH, <- ?app_assoc; reflexivity.
Qed.

(** What is done is the beginning of the plan, and all of it when [notify]
    returns. *)
Lemma until_raise_prefix (events : list event) :
  exists rest, events = fst (until_raise events) ++ rest
               /\ (snd (until_raise events) = Ok tt -> rest = []).
Proof.
  induction events as [|ev events [rest [Heq Hok]]]; simpl.
  - exists []. split; [reflexivity|auto].
  - destruct (raised ev).
    + exists events. split; [reflexivity|discriminate].
    + destruct (until_raise events) as [trace r]; simpl in *.
      exists rest. split; [congruence|exact Hok].
Qed.

Lemma conversions_convert (ty k : pytype) (events : list event) :
  conversions ty (Convert k :: events)
  = ((if decide (ty = k) then 1 else 0) + conversions ty events)%nat.
Proof.
  unfold conversions. simpl.
  destruct (decide (ty = k)) as [Heq|Hne].
  - rewrite bool_decide_eq_true_2 by exact Heq. reflexivity.
  - rewrite bool_decide_eq_false_2 by exact Hne. reflexivity.
Qed.

Lemma conversions_log (ty k : pytype) (e : pyexc) (events : list event) :
  conversions ty (LogError k e :: events) = conversions ty events.
Proof. reflexivity. Qed.

(** The plan converts once for each type that has a subscriber and a
    converter, and never otherwise. *)
Lemma plan_conversions (convs : list (pytype * converter)) (payload : bytes)
    (items : list (pytype * list Subscriber)) (ty : pytype) :
  NoDup (map fst items) ->
  conversions ty (plan convs payload items)
  = match dict_lookup ty items, dict_lookup ty convs with
    | Some (_ :: _), Some _ => 1%nat
    | _, _ => 0%nat
    end.
Proof.
  induction items as [|[k subscribers] items IH]; simpl; [reflexivity|].
  intros Hnodup. apply NoDup_cons in Hnodup as [Hk Hnodup].
  specialize (IH Hnodup).
  assert (ty = k -> dict_lookup ty items = None) as Hfresh.
  { intros ->. destruct (dict_lookup k items) eqn:E; [|reflexivity].
    exfalso. apply Hk, list_elem_of_In, dict_lookup_keys. congruence. }
  destruct (decide (ty = k)) as [Heq|Hne].
  - rewrite (Hfresh Heq) in IH. subst k.
    destruct subscribers as [|s subscribers]; [exact IH|].
    destruct (dict_lookup ty convs) as [convert|].
    + destruct (convert payload) as [v|e];
        rewrite conversions_convert, ?conversions_log, ?conversions_app,
          ?conversions_calls_for, IH;
        destruct (decide (ty = ty)); try contradiction; reflexivity.
    + rewrite conversions_log. exact IH.
  - destruct subscribers as [|s subscribers]; [exact IH|].
    destruct (dict_lookup k convs) as [convert|].
    + destruct (convert payload) as [v|e];
        rewrite conversions_convert, ?conversions_log, ?conversions_app,
          ?conversions_calls_for, IH;
        destruct (decide (ty = k)); try contradiction; reflexivity.
    + rewrite conversions_log. exact IH.
Qed.

End Conversions.

Section ConversionClaims.

Import SubscriberManager.

Lemma manager_of_nodup (L : PyLib) (history : list (Callable * pyval)) :
  NoDup (map fst (subscribers_by_type (manager_of L history))).
Proof.
  rewrite (proj1 (manager_of_shape L history)). unfold builtin_types.
  apply (bool_decide_unpack _). reflexivity.
Qed.

(** C5 (as the code has it).  In a call of [notify] on a manager reached
    from a new one, the converter of a type is called at most once, and not
    at all for a type without subscribers; it is called exactly once for
    every type with a subscriber when [notify] returns (a callback that
    raises ends the call, and the types after it are not converted).  A
    conversion that raises costs the conversion and its error report only:
    no subscriber of that type is called, and the types before and after it
    are dispatched as planned. *)
Theorem conversion_once_per_type (L : PyLib) (history : list (Callable * pyval))
    (payload : bytes) :
  (forall ty, (conversions ty (fst (notify (manager_of L history) payload)) <= 1)%nat)
  /\ (forall ty,
        dict_lookup ty (subscribers_by_type (manager_of L history)) = None
        \/ dict_lookup ty (subscribers_by_type (manager_of L history)) = Some [] ->
        conversions ty (fst (notify (manager_of L history) payload)) = 0%nat)
  /\ (forall ty s subscribers,
        dict_lookup ty (subscribers_by_type (manager_of L history)) = Some (s :: subscribers) ->
        snd (notify (manager_of L history) payload) = Ok tt ->
        conversions ty (fst (notify (manager_of L history) payload)) = 1%nat)
  /\ (forall before ty s subscribers after convert e,
        subscribers_by_type (manager_of L history)
          = before ++ (ty, s :: subscribers) :: after ->
        dict_lookup ty (converters (manager_of L history)) = Some convert ->
        convert payload = Raise e ->
        notify (manager_of L history) payload
        = until_raise
            (plan (converters (manager_of L history)) payload before
               ++ Convert ty :: LogError ty e
               :: plan (converters (manager_of L history)) payload after)).
Proof.
  set (self := manager_of L history).
  pose proof (notify_until_raise self payload) as Hnotify.
  pose proof (plan_conversions (converters self) payload (subscribers_by_type self))
    as Hplan.
  destruct (until_raise_prefix (plan (converters self) payload (subscribers_by_type self)))
    as [rest [Hsplit Hok]].
  rewrite <- Hnotify in Hsplit, Hok.
  assert (forall ty,
             (conversions ty (fst (notify self payload))
              + conversions ty rest)%nat
             = match dict_lookup ty (subscribers_by_type self),
                     dict_lookup ty (converters self) with
               | Some (_ :: _), Some _ => 1%nat
               | _, _ => 0%nat
               end) as Hcount.
  { intros ty. rewrite <- conversions_app, <- Hsplit.
    apply Hplan, manager_of_nodup. }
  repeat split.
  - intros ty. specialize (Hcount ty).
    destruct (dict_lookup ty (subscribers_by_type self)) as [[|]|],
             (dict_lookup ty (converters self)); lia.
  - intros ty Hnone. specialize (Hcount ty).
    destruct Hnone as [Hnone|Hnone]; rewrite Hnone in Hcount;
      destruct (dict_lookup ty (converters self)); lia.
  - intros ty s subscribers Hsome Hret. specialize (Hcount ty).
    rewrite (Hok Hret) in Hcount. rewrite Hsome in Hcount.
    pose proof (manager_of_converter L history ty) as Hconv.
    fold self in Hconv. rewrite Hsome in Hconv.
    destruct (dict_lookup ty (converters self)).
    + unfold conversions in Hcount at 2. simpl in Hcount. lia.
    + exfalso. apply Hconv; [discriminate|reflexivity].
  - intros before ty s subscribers after convert e Hitems Hconv Hraise.
    rewrite Hnotify, Hitems, plan_app. simpl. rewrite Hconv, Hraise. reflexivity.
Qed.

End ConversionClaims.

(** C5, the counterexample: [h] subscribes to [str], but the payload [x] is
    never converted to [str], because [f], called before, raises. *)
Lemma conversion_skipped_after_raise :
  dict_lookup (Plain Cstr) (SubscriberManager.subscribers_by_type manager_fh)
    = Some [ {| callback := def1_typed "h" (Plain Cstr) returns;
                datatype := Some (Plain Cstr); payload_filter := VNone |} ]
  /\ conversions (Plain Cstr) (fst (SubscriberManager.notify manager_fh (b "x"))) = 0%nat
  /\ snd (SubscriberManager.notify manager_fh (b "x")) = Raise (Exception "RuntimeError").
Proof. repeat split; reflexivity. Qed.

Lemma conversion_once_per_type_witness :
  conversions (Plain Cstr) (fst (SubscriberManager.notify manager_gs (b "x"))) = 1%nat
  /\ SubscriberManager.notify manager_gs [xff]
     = ([Convert (Plain Cbytes); Call (def1 "g" returns) [VBytes [xff]];
         Convert (Plain Cstr); LogError (Plain Cstr) (Exception "UnicodeDecodeError")],
        Ok tt).
Proof.
  split.
  - apply (proj1 (proj2 (proj2
             (conversion_once_per_type example_lib
                [ (def1 "g" returns, VNone);
                  (def1_typed "s" (Plain Cstr) returns, VNone) ] (b "x"))))
             (Plain Cstr)
             {| callback := def1_typed "s" (Plain Cstr) returns;
                datatype := Some (Plain Cstr); payload_filter := VNone |} []);
      reflexivity.
  - etransitivity.
    + apply (proj2 (proj2 (proj2
               (conversion_once_per_type example_lib
                  [ (def1 "g" returns, VNone);
                    (def1_typed "s" (Plain Cstr) returns, VNone) ] [xff])))
               [ (Plain Cbytes,
                  [ {| callback := def1 "g" returns; datatype := Some (Plain Cbytes);
                       payload_filter := VNone |} ]);
                 (Plain Cdict, []) ]
               (Plain Cstr)
               {| callback := def1_typed "s" (Plain Cstr) returns;
                  datatype := Some (Plain Cstr); payload_filter := VNone |} []
               []
               (SubscriberManager._convert_to_str example_lib)
               (Exception "UnicodeDecodeError"));
        reflexivity.
    + reflexivity.
Defined.

Section FilterClaims.

Import SubscriberManager.






End FilterClaims.



Section RegistrationClaims.

Import SubscriberManager.

(** C3 (as the code has it).  When [add_subscriber] registers a subscriber
    under [ty], appending it to the list of [ty]: a callback without
    parameter, and likewise one whose only parameter is annotated [None],
    goes under the class of the filter, or under [bytes] when there is no
    filter, and no filter is refused for it; a callback with one parameter
    annotated with a class goes under that class, with a [typing] generic
    under its origin; a callback with one parameter without annotation
    counts as declaring [bytes] and goes under [bytes].  In the last three
    cases a filter, if any, is of that very type: a callback with one
    parameter without annotation and a filter that is not a [bytes] object
    is not registered at all.  A parameter annotated with any other object
    admits no filter, and goes under that object when it counts as true and
    under [bytes] when it does not. *)
Theorem tag_resolution (self : t) (cb : Callable) (f : pyval) :
  (forall ty,
      snd (add_subscriber self cb f) = Ok (Registered ty) ->
      match cb_signature cb with
      | Ok [] | Ok [AnnotNone] => ty = (if is_none f then Plain Cbytes else class_of f)
      | Ok [Empty] => ty = Plain Cbytes /\ (f = VNone \/ class_of f = Plain Cbytes)
      | Ok [Annot (Plain c)] => ty = Plain c /\ (f = VNone \/ class_of f = Plain c)
      | Ok [Annot (Alias origin)] =>
          ty = Plain origin /\ (f = VNone \/ class_of f = Plain origin)
      | Ok [Annot (Object name truth can_hash)] =>
          ty = (if truth then Object name truth can_hash else Plain Cbytes) /\ f = VNone
      | _ => False
      end
      /\ exists subscribers,
          dict_lookup ty (subscribers_by_type self) = Some subscribers
          /\ dict_lookup ty (subscribers_by_type (fst (add_subscriber self cb f)))
             = Some (subscribers ++ [ {| callback := cb;
                                         datatype := callback_type cb;
                                         payload_filter := f |} ]))
  /\ (cb_signature cb = Ok [Empty] -> f <> VNone -> class_of f <> Plain Cbytes ->
      add_subscriber self cb f = log_and_return self cb IncompatibleFilter)
  /\ (cb_signature cb = Ok [AnnotNone] -> callback_type cb = None).
Proof.
  split; [|split].
  - intros ty Hty.
    destruct (add_subscriber_cases self cb f)
      as [[_ Hno]|(params & subscribers & Hsig & Hlen & Hfilter & _ & Hsubs & Heq)].
    { exfalso. exact (Hno ty Hty). }
    rewrite Heq in Hty |- *. simpl in Hty. injection Hty as <-. split.
    + unfold effective_type, callback_type, filter_type_or_bytes in *. rewrite Hsig in *.
      destruct params as [|[| |[c|origin|name truth can_hash]] [|a params]];
        simpl in Hlen; try lia; try reflexivity.
      * split; [reflexivity|]. destruct Hfilter as [Hf|Hf]; [left; exact Hf|].
        right. apply Hf. reflexivity.
      * split; [reflexivity|]. destruct Hfilter as [Hf|Hf]; [left; exact Hf|].
        right. apply Hf. reflexivity.
      * split; [reflexivity|]. destruct Hfilter as [Hf|Hf]; [left; exact Hf|].
        right. apply Hf. reflexivity.
      * assert (f = VNone) as ->.
        { destruct Hfilter as [Hf|Hf]; [exact Hf|].
          specialize (Hf _ eq_refl). discriminate Hf. }
        split; [|reflexivity]. simpl. destruct truth; reflexivity.
    + exists subscribers. split; [exact Hsubs|]. apply dict_lookup_set_eq.
  - intros Hparams Hfilter Hclass. rewrite add_subscriber_unfold, Hparams. simpl.
    apply is_none_false in Hfilter. rewrite Hfilter. simpl.
    unfold callback_type. rewrite Hparams.
    rewrite bool_decide_eq_false_2 by exact Hclass. reflexivity.
  - intros Hparams. unfold callback_type. rewrite Hparams. reflexivity.
Qed.






End RegistrationClaims.
(** C3, the counterexample: [def f(payload)] with the filter ["on"] is not
    registered under [str]; it is not registered at all. *)
Lemma unannotated_with_str_filter :
  cb_signature (def1 "f" returns) = Ok [Empty]
  /\ class_of (VStr "on") = Plain Cstr
  /\ SubscriberManager.add_subscriber (SubscriberManager.__init__ example_lib)
       (def1 "f" returns) (VStr "on")
     = (SubscriberManager.__init__ example_lib, Ok IncompatibleFilter).
Proof. repeat split; reflexivity. Qed.

Lemma tag_resolution_witness :
  (Plain Cstr = (if is_none (VStr "on") then Plain Cbytes else class_of (VStr "on"))
   /\ exists subscribers,
       dict_lookup (Plain Cstr)
         (SubscriberManager.subscribers_by_type (SubscriberManager.__init__ example_lib))
       = Some subscribers
       /\ dict_lookup (Plain Cstr)
            (SubscriberManager.subscribers_by_type
               (fst (SubscriberManager.add_subscriber
                       (SubscriberManager.__init__ example_lib)
                       (def1_none "f" returns) (VStr "on"))))
          = Some (subscribers ++ [ {| callback := def1_none "f" returns;
                                      datatype := callback_type (def1_none "f" returns);
                                      payload_filter := VStr "on" |} ]))
  /\ SubscriberManager.add_subscriber (SubscriberManager.__init__ example_lib)
       (def1 "g" returns) (VDict [])
     = SubscriberManager.log_and_return (SubscriberManager.__init__ example_lib)
         (def1 "g" returns) IncompatibleFilter
  /\ callback_type (def1_none "f" returns) = None.
Proof.
  split; [|split].
  - apply (proj1 (tag_resolution (SubscriberManager.__init__ example_lib)
                    (def1_none "f" returns) (VStr "on")) (Plain Cstr)).
    reflexivity.
  - apply (proj1 (proj2 (tag_resolution (SubscriberManager.__init__ example_lib)
                           (def1 "g" returns) (VDict [])))).
    + reflexivity.
    + discriminate.
    + discriminate.
  - apply (proj2 (proj2 (tag_resolution (SubscriberManager.__init__ example_lib)
                           (def1_none "f" returns) (VStr "on")))).
    reflexivity.
Defined.



(* ===================================================================== *)
(** * Part VI: the topic table                                            *)
(* ===================================================================== *)

Section Topics.

Variable L : PyLib.

Lemma subscribed_subscribe (topic topic' : string) (client : Client) :
  subscribed topic (subscribe client topic')
  = (subscribed topic client + (if decide (topic = topic') then 1 else 0))%nat.
Proof.
  unfold subscribed, subscribe. simpl.
  rewrite List.filter_app, length_app. simpl.
  destruct (decide (topic = topic')) as [->|Hne].
  - rewrite String.eqb_refl. reflexivity.
  - apply String.eqb_neq in Hne. rewrite Hne. reflexivity.
Qed.

(** One registration with a client in place: the topic has a manager
    afterwards; the other topics keep theirs; [subscribe] is called, once
    and with this topic, only if the topic had no manager; and the call
    returns when the registration is well-formed. *)
Lemma add_subscriber_step (g : Globals) (client : Client) (topic : string)
    (cb : Callable) (f : pyval) :
  _mqtt_client g = Some client ->
  exists client',
    _mqtt_client (fst (add_subscriber L g topic cb f)) = Some client'
    /\ is_Some (_subscribers (fst (add_subscriber L g topic cb f)) !! topic)
    /\ (forall topic', topic' <> topic ->
          _subscribers (fst (add_subscriber L g topic cb f)) !! topic'
          = _subscribers g !! topic')
    /\ (forall topic',
          subscribed topic' client'
          = (subscribed topic' client
             + match _subscribers g !! topic with
               | None => if decide (topic' = topic) then 1 else 0
               | Some _ => 0
               end)%nat)
    /\ (well_formed cb f -> snd (add_subscriber L g topic cb f) = Ok tt).
Proof.
  intros Hclient. unfold add_subscriber, get_client. rewrite Hclient.
  destruct (_subscribers g !! topic) as [manager|] eqn:Hlookup.
  - exists client. cbn [fst snd _mqtt_client _subscribers].
    split; [reflexivity|]. split; [|split; [|split]].
    + rewrite lookup_insert_eq. eauto.
    + intros topic' Hne. apply lookup_insert_ne. congruence.
    + intros topic'. lia.
    + intros Hwf.
      destruct (proj1 (add_subscriber_returns manager cb f) Hwf)
        as [what ->].
      reflexivity.
  - exists (subscribe client topic). cbn [fst snd _mqtt_client _subscribers].
    split; [reflexivity|]. split; [|split; [|split]].
    + rewrite lookup_insert_eq. eauto.
    + intros topic' Hne. rewrite !lookup_insert_ne by congruence. reflexivity.
    + intros topic'. apply subscribed_subscribe.
    + intros Hwf.
      destruct (proj1 (add_subscriber_returns
                         (SubscriberManager.__init__ L) cb f) Hwf)
        as [what ->].
      reflexivity.
Qed.

(** C8.  With a client registered, every well-formed registration of a
    sequence returns, and over the whole sequence, whether its registrations
    return or raise, [subscribe] is called exactly once with each topic of
    the sequence that had no manager before, and never with any other topic:
    a topic that already has a manager (from before the sequence, or from an
    earlier registration of the sequence) is not subscribed again.  Every
    topic of the sequence has a manager in the end. *)
Theorem subscribe_once_per_topic (calls : list (string * Callable * pyval))
    (g : Globals) (client : Client) :
  _mqtt_client g = Some client ->
  exists g' client' results,
    add_subscribers L g calls = (g', results)
    /\ Forall2 (fun call r => well_formed (snd (fst call)) (snd call) -> r = Ok tt)
         calls results
    /\ _mqtt_client g' = Some client'
    /\ (forall topic,
          In topic (map topic_of calls) -> _subscribers g !! topic = None ->
          subscribed topic client' = S (subscribed topic client))
    /\ (forall topic,
          ~ In topic (map topic_of calls) \/ is_Some (_subscribers g !! topic) ->
          subscribed topic client' = subscribed topic client)
    /\ (forall topic,
          In topic (map topic_of calls) \/ is_Some (_subscribers g !! topic) ->
          is_Some (_subscribers g' !! topic)).
Proof.
  revert g client.
  induction calls as [|[[topic0 cb] f] calls IH]; intros g client Hclient.
  - exists g, client, []. simpl. repeat split; try tauto. constructor.
  - destruct (add_subscriber_step g client topic0 cb f Hclient)
      as (client1 & Hclient1 & Hsome & Hother & Hcount & Hret).
    destruct (IH _ client1 Hclient1)
      as (g' & client' & results & Hrun & Hres & Hclient' & Hnew & Hold & Hmanaged).
    exists g', client', (snd (add_subscriber L g topic0 cb f) :: results).
    cbn [add_subscribers]. rewrite Hrun. cbn [fst snd].
    split; [reflexivity|]. split; [constructor; [exact Hret|exact Hres]|].
    split; [exact Hclient'|].
    split; [|split].
    + intros topic Hin Hnone.
      destruct (decide (topic = topic0)) as [->|Hne].
      * rewrite (Hold topic0) by (right; exact Hsome).
        rewrite Hcount, Hnone. destruct (decide (topic0 = topic0)); [lia|contradiction].
      * destruct Hin as [Heq|Hin]; [simpl in Heq; congruence|].
        rewrite (Hnew topic Hin) by (rewrite Hother by exact Hne; exact Hnone).
        rewrite Hcount.
        destruct (_subscribers g !! topic0); [lia|].
        destruct (decide (topic = topic0)); [contradiction|lia].
    + intros topic Hcase.
      assert (subscribed topic client1 = subscribed topic client) as Hsame.
      { rewrite Hcount. destruct (_subscribers g !! topic0) eqn:Hl; [lia|].
        destruct (decide (topic = topic0)) as [->|Hne]; [|lia].
        destruct Hcase as [Hnotin|[m Hm]]; [|congruence].
        exfalso. apply Hnotin. left. reflexivity. }
      rewrite <- Hsame. apply Hold.
      destruct (decide (topic = topic0)) as [->|Hne]; [right; exact Hsome|].
      destruct Hcase as [Hnotin|Hm].
      * left. intros Hin. apply Hnotin. right. exact Hin.
      * right. rewrite Hother by exact Hne. exact Hm.
    + intros topic Hcase. apply Hmanaged.
      destruct (decide (topic = topic0)) as [->|Hne]; [right; exact Hsome|].
      destruct Hcase as [[Heq|Hin]|Hm].
      * simpl in Heq. congruence.
      * left. exact Hin.
      * right. rewrite Hother by exact Hne. exact Hm.
Qed.

(** C10.  Without a client, a registration on a topic that has no manager
    raises, and nothing has changed: [get_client] raises before the table is
    touched, so no manager is made, no subscriber stored, and there is no
    client to subscribe with. *)
Theorem add_subscriber_without_client (g : Globals) (topic : string)
    (cb : Callable) (f : pyval) :
  _mqtt_client g = None ->
  _subscribers g !! topic = None ->
  add_subscriber L g topic cb f
  = (g, Raise (Exception
                 "No client was registered. Please make sure to call register_client")).
Proof.
  intros Hclient Htopic. unfold add_subscriber, get_client.
  rewrite Htopic, Hclient. reflexivity.
Qed.

End Topics.

Lemma subscribe_once_per_topic_witness :
  exists g' client',
    add_subscribers example_lib
      (register_client module_init {| subscribe_calls := []; on_message := false |})
      [ ("light/state"%string, def1_typed "s" (Plain Cstr) returns, VStr "on");
        ("light/state"%string, partial 2 returns, VNone);
        ("door"%string, def0 "z" returns, VNone) ]
    = (g', [Ok tt; Raise (Exception "AttributeError"); Ok tt])
    /\ _mqtt_client g' = Some client'
    /\ subscribed "light/state" client' = 1%nat
    /\ subscribed "door" client' = 1%nat
    /\ subscribed "window" client' = 0%nat.
Proof.
  destruct (subscribe_once_per_topic example_lib
              [ ("light/state"%string, def1_typed "s" (Plain Cstr) returns, VStr "on");
                ("light/state"%string, partial 2 returns, VNone);
                ("door"%string, def0 "z" returns, VNone) ]
              (register_client module_init {| subscribe_calls := []; on_message := false |})
              {| subscribe_calls := []; on_message := true |}
              eq_refl)
    as (g' & client' & results & Hrun & _ & Hclient & Hnew & Hold & _).
  exists g', client'.
  split; [|split; [exact Hclient|split; [|split]]].
  - rewrite Hrun. f_equal.
    apply (f_equal snd) in Hrun. simpl in Hrun. symmetry. exact Hrun.
  - apply (Hnew "light/state"%string); [left; reflexivity|reflexivity].
  - apply (Hnew "door"%string); [right; right; left; reflexivity|reflexivity].
  - apply (Hold "window"%string). left. simpl. intros [H|[H|[H|[]]]]; discriminate.
Defined.

Lemma add_subscriber_without_client_witness :
  add_subscriber example_lib module_init "light/state" (def1 "g" returns) VNone
  = (module_init,
     Raise (Exception
              "No client was registered. Please make sure to call register_client")).
Proof.
  apply (add_subscriber_without_client example_lib module_init "light/state"
           (def1 "g" returns) VNone); reflexivity.
Defined.

(* ===================================================================== *)
(** * Part VII: the scheduler                                             *)
(* ===================================================================== *)

Section Scheduler.

Lemma Callback_eqb_refl (cb : Callback.t) : Callback.eqb cb cb = true.
Proof. unfold Callback.eqb. rewrite Z.eqb_refl, Nat.eqb_refl. reflexivity. Qed.

Lemma Callback_eqb_job (a c : Callback.t) :
  Callback.eqb a c = true ->
  job_id (Callback.callable a) = job_id (Callback.callable c).
Proof.
  unfold Callback.eqb. intros H. apply andb_true_iff in H as [_ H].
  apply Nat.eqb_eq. exact H.
Qed.

(** Among entries of distinct jobs, [remove] takes out the very entry it is
    given. *)
Lemma list_remove_split (cb : Callback.t) (l : list Callback.t) :
  NoDup (job_ids l) -> cb ∈ l ->
  exists l1 l2, l = l1 ++ cb :: l2 /\ list_remove cb l = Some (l1 ++ l2).
Proof.
  induction l as [|y l IH]; intros Hnodup Hin.
  - apply elem_of_nil in Hin. contradiction.
  - unfold job_ids in Hnodup. rewrite fmap_cons in Hnodup.
    apply NoDup_cons in Hnodup as [Hy Hnodup].
    simpl. destruct (Callback.eqb cb y) eqn:Heq.
    + apply elem_of_cons in Hin as [->|Hin].
      * exists [], l. split; reflexivity.
      * exfalso. apply Hy. rewrite <- (Callback_eqb_job _ _ Heq).
        apply (list_elem_of_fmap_2 (fun cb => job_id (Callback.callable cb))). exact Hin.
    + apply elem_of_cons in Hin as [->|Hin].
      * rewrite Callback_eqb_refl in Heq. discriminate.
      * destruct (IH Hnodup Hin) as (l1 & l2 & -> & ->).
        exists (y :: l1), l2. split; reflexivity.
Qed.

Lemma consistent_init (sun : Sun) : consistent (Location_init sun).
Proof.
  constructor; simpl; try apply NoDup_nil_2;
    try (intros ? H; apply elem_of_nil in H; contradiction).
  discriminate.
Qed.

(** A decorator makes a new job and appends its first entry. *)
Lemma consistent_register (self : Location) (code : closure) (when : datetime) :
  consistent self ->
  consistent (append_callback (fst (new_job self code)) when (snd (new_job self code))).
Proof.
  intros [Hs Hj Hc Hil Hin Hir Hrp Hrn Hci].
  constructor; simpl.
  - unfold serials in *. rewrite fmap_app. apply NoDup_app.
    split; [exact Hs|]. split; [|apply NoDup_singleton].
    intros n Hn. simpl. rewrite list_elem_of_singleton. intros ->.
    apply list_elem_of_fmap in Hn as (cb & Heq & Hcb).
    assert (cb ∈ _pending_callbacks self ++ option_list (loop_call self)) as H
      by (apply elem_of_app; left; exact Hcb).
    apply Hc in H. lia.
  - unfold job_ids in *. rewrite <- app_assoc.
    rewrite !fmap_app in *. simpl.
    apply NoDup_app in Hj as (Hj1 & Hj2 & Hj3).
    apply NoDup_app. split; [exact Hj1|]. split.
    + intros n Hn. rewrite elem_of_cons. intros [->|Hn'].
      * apply list_elem_of_fmap in Hn as (cb & Heq & Hcb).
        assert (cb ∈ _pending_callbacks self ++ option_list (loop_call self)) as H
          by (apply elem_of_app; left; exact Hcb).
        apply Hc in H. lia.
      * exact (Hj2 n Hn Hn').
    + apply NoDup_cons. split; [|exact Hj3].
      intros Hn. apply list_elem_of_fmap in Hn as (cb & Heq & Hcb).
      assert (cb ∈ _pending_callbacks self ++ option_list (loop_call self)) as H
        by (apply elem_of_app; right; exact Hcb).
      apply Hc in H. lia.
  - intros cb Hcb. rewrite <- app_assoc in Hcb.
    apply elem_of_app in Hcb as [Hcb|Hcb].
    + assert (cb ∈ _pending_callbacks self ++ option_list (loop_call self)) as H
        by (apply elem_of_app; left; exact Hcb).
      apply Hc in H. lia.
    + apply elem_of_cons in Hcb as [->|Hcb]; [simpl; lia|].
      assert (cb ∈ _pending_callbacks self ++ option_list (loop_call self)) as H
        by (apply elem_of_app; right; exact Hcb).
      apply Hc in H. lia.
  - intros n Hn. apply Hil in Hn. lia.
  - exact Hin.
  - intros n Hn. unfold serials. rewrite fmap_app, elem_of_app. simpl.
    rewrite list_elem_of_singleton. intros [H | ->].
    + exact (Hir n Hn H).
    + apply Hil in Hn. lia.
  - intros cb Hcb. apply elem_of_app. left. apply Hrp. exact Hcb.
  - exact Hrn.
  - exact Hci.
Qed.

(** A decorator makes a new job. *)
Lemma consistent_new_job (self : Location) (code : closure) :
  consistent self -> consistent (fst (new_job self code)).
Proof.
  intros [Hs Hj Hc Hil Hin Hir Hrp Hrn Hci].
  constructor; simpl; try assumption.
  - intros cb Hcb. apply Hc in Hcb. lia.
  - intros n Hn. apply Hil in Hn. lia.
Qed.

(** The days and times of the statements are those of the code. *)
Lemma day_of_date_of (dt : Z) : date_of dt = day_of dt.
Proof. reflexivity. Qed.

Lemma instant_at_combine (d t : Z) : combine d t = instant_at d t.
Proof. reflexivity. Qed.

Lemma midday_noon : noon = midday.
Proof. reflexivity. Qed.

Lemma given_offset_or_timedelta (offset : option Z) :
  or_timedelta offset = given_offset offset.
Proof.
  destruct offset as [d|]; [|reflexivity]. simpl.
  destruct (Z.eqb_spec d 0) as [->|_]; reflexivity.
Qed.

(** What a decorator does, in terms of the occurrences of its job. *)
Lemma on_sunrise_unfold (offset : option timedelta) (func : string) (now : datetime)
    (self : Location) :
  on_sunrise offset func now self
  = match occurrence (_sun self) (sunrise_job func (given_offset offset)) (day_of now) with
    | Raise e => (fst (new_job self (sunrise_job func (given_offset offset))), Raise e)
    | Ok today =>
        if today <=? now then
          match occurrence (_sun self) (sunrise_job func (given_offset offset))
                  (day_of now + 1) with
          | Raise e => (fst (new_job self (sunrise_job func (given_offset offset))), Raise e)
          | Ok tomorrow =>
              (append_callback (fst (new_job self (sunrise_job func (given_offset offset))))
                 tomorrow (snd (new_job self (sunrise_job func (given_offset offset)))),
               Ok tt)
          end
        else
          (append_callback (fst (new_job self (sunrise_job func (given_offset offset))))
             today (snd (new_job self (sunrise_job func (given_offset offset)))),
           Ok tt)
    end.
Proof.
  unfold on_sunrise, occurrence. rewrite given_offset_or_timedelta.
  cbn [new_job fst snd _sun].
  rewrite !day_of_date_of, midday_noon, (instant_at_combine (day_of now) midday),
    (instant_at_combine (day_of now + 1) midday).
  destruct (get_sunrise_time (_sun self) (instant_at (day_of now) midday)) as [t|e];
    [|reflexivity].
  destruct (t + given_offset offset <=? now); [|reflexivity].
  destruct (get_sunrise_time (_sun self) (instant_at (day_of now + 1) midday));
    reflexivity.
Qed.

Lemma on_sunset_unfold (offset : option timedelta) (func : string) (now : datetime)
    (self : Location) :
  on_sunset offset func now self
  = match occurrence (_sun self) (sunset_job func (given_offset offset)) (day_of now) with
    | Raise e => (fst (new_job self (sunset_job func (given_offset offset))), Raise e)
    | Ok today =>
        if today <=? now then
          match occurrence (_sun self) (sunset_job func (given_offset offset))
                  (day_of now + 1) with
          | Raise e => (fst (new_job self (sunset_job func (given_offset offset))), Raise e)
          | Ok tomorrow =>
              (append_callback (fst (new_job self (sunset_job func (given_offset offset))))
                 tomorrow (snd (new_job self (sunset_job func (given_offset offset)))),
               Ok tt)
          end
        else
          (append_callback (fst (new_job self (sunset_job func (given_offset offset))))
             today (snd (new_job self (sunset_job func (given_offset offset)))),
           Ok tt)
    end.
Proof.
  unfold on_sunset, occurrence. rewrite given_offset_or_timedelta.
  cbn [new_job fst snd _sun].
  rewrite !day_of_date_of, midday_noon, (instant_at_combine (day_of now) midday),
    (instant_at_combine (day_of now + 1) midday).
  destruct (get_sunset_time (_sun self) (instant_at (day_of now) midday)) as [t|e];
    [|reflexivity].
  destruct (t + given_offset offset <=? now); [|reflexivity].
  destruct (get_sunset_time (_sun self) (instant_at (day_of now + 1) midday));
    reflexivity.
Qed.

Lemma on_localtime_unfold (target_time : time) (func : string) (now : datetime)
    (self : Location) :
  on_localtime target_time func now self
  = append_callback (fst (new_job self (localtime_job func target_time)))
      (if instant_at (day_of now) target_time <=? now
       then instant_at (day_of now + 1) target_time
       else instant_at (day_of now) target_time)
      (snd (new_job self (localtime_job func target_time))).
Proof. reflexivity. Qed.

Lemma on_sunrise_register (offset : option timedelta) (func : string) (now : datetime)
    (self : Location) :
  exists code,
    fst (on_sunrise offset func now self) = fst (new_job self code)
    \/ exists when,
        fst (on_sunrise offset func now self)
        = append_callback (fst (new_job self code)) when (snd (new_job self code)).
Proof.
  rewrite on_sunrise_unfold. eexists.
  destruct (occurrence _ _ (day_of now)) as [today|e]; [|left; reflexivity].
  destruct (today <=? now); [|right; eexists; reflexivity].
  destruct (occurrence _ _ (day_of now + 1)) as [tomorrow|e]; [|left; reflexivity].
  right. eexists. reflexivity.
Qed.

Lemma on_sunset_register (offset : option timedelta) (func : string) (now : datetime)
    (self : Location) :
  exists code,
    fst (on_sunset offset func now self) = fst (new_job self code)
    \/ exists when,
        fst (on_sunset offset func now self)
        = append_callback (fst (new_job self code)) when (snd (new_job self code)).
Proof.
  rewrite on_sunset_unfold. eexists.
  destruct (occurrence _ _ (day_of now)) as [today|e]; [|left; reflexivity].
  destruct (today <=? now); [|right; eexists; reflexivity].
  destruct (occurrence _ _ (day_of now + 1)) as [tomorrow|e]; [|left; reflexivity].
  right. eexists. reflexivity.
Qed.

Lemma on_localtime_register (target_time : time) (func : string) (now : datetime)
    (self : Location) :
  exists code when,
    on_localtime target_time func now self
    = append_callback (fst (new_job self code)) when (snd (new_job self code)).
Proof. eexists _, _. reflexivity. Qed.

End Scheduler.

Section SchedulerSteps.

(** [consistent] looks at the list, the loop variables and the bookkeeping
    only. *)
Lemma consistent_same (self self' : Location) :
  _pending_callbacks self' = _pending_callbacks self ->
  loop_rest self' = loop_rest self ->
  loop_call self' = loop_call self ->
  created self' = created self ->
  invoked self' = invoked self ->
  consistent self -> consistent self'.
Proof.
  intros E1 E2 E3 E4 E5 [Hs Hj Hc Hil Hin Hir Hrp Hrn Hci].
  constructor; rewrite ?E1, ?E2, ?E3, ?E4, ?E5; assumption.
Qed.

Lemma consistent_stop (self : Location) : consistent self -> consistent (stop self).
Proof. apply consistent_same; reflexivity. Qed.

Lemma consistent_loop_begin (now : datetime) (self : Location) :
  consistent self -> consistent (loop_begin now self).
Proof.
  intros H. unfold loop_begin.
  destruct (loop_rest self) eqn:Hrest; [|exact H].
  destruct (loop_call self) eqn:Hcall; [exact H|].
  destruct (_running self && thread_alive self); [|exact H].
  destruct H as [Hs Hj Hc Hil Hin Hir Hrp Hrn Hci].
  rewrite Hcall in Hj, Hc.
  constructor; simpl; try assumption.
  - intros cb Hcb. exact Hcb.
  - discriminate.
Qed.

(** The loop drops an entry of its copy without calling its job. *)
Lemma consistent_skip (self : Location) (cb : Callback.t) (rest : list Callback.t) :
  loop_call self = None ->
  loop_rest self = cb :: rest ->
  consistent self ->
  consistent (with_loop self (_pending_callbacks self) (loop_now self) rest None).
Proof.
  intros Hcall Hrest [Hs Hj Hc Hil Hin Hir Hrp Hrn Hci].
  rewrite Hcall in Hj, Hc. rewrite Hrest in Hrp, Hrn.
  constructor; simpl; try assumption.
  - intros x Hx. apply Hrp. apply elem_of_cons. right. exact Hx.
  - unfold serials in Hrn. rewrite fmap_cons in Hrn.
    apply NoDup_cons in Hrn as [_ Hrn]. exact Hrn.
  - discriminate.
Qed.

(** The loop removes a due entry and calls its job. *)
Lemma consistent_fire (self : Location) (cb : Callback.t)
    (rest l1 l2 : list Callback.t) :
  loop_call self = None ->
  loop_rest self = cb :: rest ->
  _pending_callbacks self = l1 ++ cb :: l2 ->
  consistent self ->
  consistent (log_call (with_loop self (l1 ++ l2) (loop_now self) rest (Some cb)) cb).
Proof.
  intros Hcall Hrest Hpending [Hs Hj Hc Hil Hin Hir Hrp Hrn Hci].
  rewrite Hcall, app_nil_r in Hj, Hc. rewrite Hrest in Hrp, Hrn.
  rewrite Hpending in Hs, Hj, Hc, Hir, Hrp.
  unfold serials, job_ids in *.
  rewrite fmap_app, fmap_cons in Hs, Hj, Hir.
  rewrite fmap_cons in Hrn.
  apply NoDup_app in Hs as (Hs1 & Hs2 & Hs3). apply NoDup_cons in Hs3 as [Hs3 Hs4].
  apply NoDup_cons in Hrn as [Hrn1 Hrn2].
  assert (forall x, x ∈ l1 ++ l2 -> x ∈ l1 ++ cb :: l2) as Hsub.
  { intros x. rewrite !elem_of_app, elem_of_cons. tauto. }
  assert (Callback.serial cb ∉ Callback.serial <$> (l1 ++ l2)) as Hfresh.
  { rewrite fmap_app, elem_of_app. intros [H|H]; [|exact (Hs3 H)].
    apply (Hs2 _ H). apply elem_of_cons. left. reflexivity. }
  constructor; unfold serials, job_ids; simpl.
  - rewrite fmap_app. apply NoDup_app. split; [exact Hs1|]. split; [|exact Hs4].
    intros n Hn Hn'. apply (Hs2 n Hn). apply elem_of_cons. right. exact Hn'.
  - assert ((l1 ++ l2) ++ [cb] ≡ₚ l1 ++ cb :: l2) as Hperm.
    { rewrite <- app_assoc. apply Permutation_app_head.
      symmetry. apply Permutation_cons_append. }
    rewrite Hperm, fmap_app, fmap_cons. exact Hj.
  - intros x Hx. apply Hc. apply elem_of_app in Hx as [Hx|Hx]; [exact (Hsub x Hx)|].
    apply list_elem_of_singleton in Hx as ->.
    apply elem_of_app. right. apply elem_of_cons. left. reflexivity.
  - intros n Hn. apply elem_of_app in Hn as [Hn|Hn]; [exact (Hil n Hn)|].
    apply list_elem_of_singleton in Hn as ->.
    apply Hc. apply elem_of_app. right. apply elem_of_cons. left. reflexivity.
  - apply NoDup_app. split; [exact Hin|]. split; [|apply NoDup_singleton].
    intros n Hn Hn'. apply list_elem_of_singleton in Hn' as ->.
    apply (Hir _ Hn). apply elem_of_app. right. apply elem_of_cons. left. reflexivity.
  - intros n Hn. apply elem_of_app in Hn as [Hn|Hn].
    + intros H. apply (Hir n Hn).
      rewrite fmap_app in H. apply elem_of_app in H as [H|H].
      * apply elem_of_app. left. exact H.
      * apply elem_of_app. right. apply elem_of_cons. right. exact H.
    + apply list_elem_of_singleton in Hn as ->. exact Hfresh.
  - intros x Hx.
    assert (x ∈ l1 ++ cb :: l2) as H
      by (apply Hrp; apply elem_of_cons; right; exact Hx).
    rewrite elem_of_app, elem_of_cons in H. rewrite elem_of_app.
    destruct H as [H|[->|H]]; [left; exact H| |right; exact H].
    exfalso. apply Hrn1. apply (list_elem_of_fmap_2 Callback.serial). exact Hx.
  - exact Hrn2.
  - intros c [= <-]. apply elem_of_app. right. apply list_elem_of_singleton. reflexivity.
Qed.

Lemma consistent_loop_next (self : Location) :
  consistent self -> consistent (loop_next self).
Proof.
  intros H. unfold loop_next.
  destruct (loop_call self) eqn:Hcall; [exact H|].
  destruct (loop_rest self) as [|cb rest] eqn:Hrest; [exact H|].
  destruct (loop_now self >=? Callback.datetime cb).
  - destruct (list_remove cb (_pending_callbacks self)) as [pending|] eqn:Hremove.
    + assert (cb ∈ _pending_callbacks self) as Hcb.
      { apply (rest_pending self H). rewrite Hrest. apply elem_of_cons. left. reflexivity. }
      pose proof (jobs_nodup self H) as Hj. rewrite Hcall, app_nil_r in Hj.
      destruct (list_remove_split cb _ Hj Hcb) as (l1 & l2 & Hsplit & Hsome).
      rewrite Hremove in Hsome. injection Hsome as ->.
      apply consistent_fire; assumption.
    + apply (consistent_same (with_loop self (_pending_callbacks self)
                                (loop_now self) rest None)); try reflexivity.
      apply (consistent_skip self cb rest); assumption.
  - apply (consistent_skip self cb rest); assumption.
Qed.

Lemma job_reschedule_append (job : Job) (now : datetime) (self : Location) :
  job_reschedule job now self
  = match occurrence (_sun self) (job_code job) (day_of now + 1) with
    | Ok when => append_callback self when job
    | Raise e => print_error self e
    end.
Proof.
  unfold job_reschedule, occurrence.
  rewrite !day_of_date_of, midday_noon.
  destruct (job_code job) as [func offset|func offset|func target]; [| |reflexivity].
  - rewrite (instant_at_combine (day_of now + 1) midday).
    destruct (get_sunrise_time _ _); reflexivity.
  - rewrite (instant_at_combine (day_of now + 1) midday).
    destruct (get_sunset_time _ _); reflexivity.
Qed.

(** The job that was being executed is over, and it left no entry. *)
Lemma consistent_job_over (self : Location) (cb : Callback.t) :
  loop_call self = Some cb ->
  consistent self ->
  consistent (with_loop self (_pending_callbacks self) (loop_now self) (loop_rest self) None).
Proof.
  intros Hcall [Hs Hj Hc Hil Hin Hir Hrp Hrn Hci].
  rewrite Hcall in Hj, Hc. simpl in Hj, Hc.
  unfold serials, job_ids in *. rewrite fmap_app in Hj.
  constructor; unfold serials, job_ids; simpl.
  - exact Hs.
  - rewrite app_nil_r. apply NoDup_app in Hj as [Hj _]. exact Hj.
  - intros x Hx. rewrite app_nil_r in Hx. apply Hc. apply elem_of_app. left. exact Hx.
  - exact Hil.
  - exact Hin.
  - exact Hir.
  - exact Hrp.
  - exact Hrn.
  - discriminate.
Qed.

(** The job that was being executed is over, and it appended its next
    entry. *)
Lemma consistent_job_next (self : Location) (cb : Callback.t) (when : datetime) :
  loop_call self = Some cb ->
  consistent self ->
  consistent
    (append_callback
       (with_loop self (_pending_callbacks self) (loop_now self) (loop_rest self) None)
       when (Callback.callable cb)).
Proof.
  intros Hcall [Hs Hj Hc Hil Hin Hir Hrp Hrn Hci].
  rewrite Hcall in Hj, Hc. simpl in Hj, Hc.
  unfold serials, job_ids in *. rewrite fmap_app in Hj.
  constructor; unfold serials, job_ids; simpl.
  - rewrite fmap_app. apply NoDup_app. split; [exact Hs|].
    split; [|apply NoDup_singleton].
    intros n Hn Hn'. apply list_elem_of_singleton in Hn'. simpl in Hn'. subst n.
    apply list_elem_of_fmap in Hn as (x & Heq & Hx).
    assert (x ∈ _pending_callbacks self ++ [cb]) as Hx'
      by (apply elem_of_app; left; exact Hx).
    apply Hc in Hx'. lia.
  - rewrite app_nil_r, fmap_app. exact Hj.
  - intros x Hx. rewrite app_nil_r in Hx. apply elem_of_app in Hx as [Hx|Hx].
    + assert (x ∈ _pending_callbacks self ++ [cb]) as Hx'
        by (apply elem_of_app; left; exact Hx).
      apply Hc in Hx'. lia.
    + apply list_elem_of_singleton in Hx as ->. simpl.
      assert (cb ∈ _pending_callbacks self ++ [cb]) as Hx'
        by (apply elem_of_app; right; apply list_elem_of_singleton; reflexivity).
      apply Hc in Hx'. lia.
  - intros n Hn. apply Hil in Hn. lia.
  - exact Hin.
  - intros n Hn. rewrite fmap_app, elem_of_app. intros [H|H]; [exact (Hir n Hn H)|].
    apply list_elem_of_singleton in H. simpl in H. apply Hil in Hn. lia.
  - intros x Hx. apply elem_of_app. left. apply Hrp. exact Hx.
  - exact Hrn.
  - discriminate.
Qed.

Lemma consistent_print_error (self : Location) (e : pyexc) :
  consistent self -> consistent (print_error self e).
Proof. apply consistent_same; reflexivity. Qed.

Lemma consistent_job_return (func_result : result unit) (now : datetime)
    (self : Location) :
  consistent self -> consistent (job_return func_result now self).
Proof.
  intros H. unfold job_return.
  destruct (loop_call self) as [cb|] eqn:Hcall; [|exact H].
  destruct func_result as [u|e].
  - rewrite job_reschedule_append.
    destruct (occurrence _ _ _) as [when|e].
    + apply consistent_job_next; assumption.
    + apply consistent_print_error, (consistent_job_over self cb); assumption.
  - apply consistent_print_error, (consistent_job_over self cb); assumption.
Qed.

Lemma consistent_job_exit (self : Location) :
  consistent self -> consistent (job_exit self).
Proof.
  intros H. unfold job_exit.
  destruct (loop_call self) as [cb|] eqn:Hcall; [|exact H].
  pose proof (consistent_job_over self cb Hcall H) as [Hs Hj Hc Hil Hin Hir Hrp Hrn Hci].
  simpl in *.
  constructor; simpl; try assumption.
  - intros x Hx. apply elem_of_nil in Hx. contradiction.
  - apply NoDup_nil_2.
Qed.

Lemma consistent_step (self : Location) (a : action) :
  consistent self -> consistent (step self a).
Proof.
  intros H. destruct a as [offset func now|offset func now|target func now|now| |r now| | ];
    simpl.
  - destruct (on_sunrise_register offset func now self) as (code & [-> | (when & ->)]).
    + apply consistent_new_job, H.
    + apply consistent_register, H.
  - destruct (on_sunset_register offset func now self) as (code & [-> | (when & ->)]).
    + apply consistent_new_job, H.
    + apply consistent_register, H.
  - destruct (on_localtime_register target func now self) as (code & when & ->).
    apply consistent_register, H.
  - apply consistent_loop_begin, H.
  - apply consistent_loop_next, H.
  - apply consistent_job_return, H.
  - apply consistent_job_exit, H.
  - apply consistent_stop, H.
Qed.

Lemma consistent_run (actions : list action) (self : Location) :
  consistent self -> consistent (run self actions).
Proof.
  revert self. induction actions as [|a actions IH]; intros self H; [exact H|].
  simpl. apply IH, consistent_step, H.
Qed.

(** Once the scheduler thread has ended, no step calls a job or prints. *)
Lemma ended_step (self : Location) (a : action) :
  thread_alive self = false -> loop_rest self = [] -> loop_call self = None ->
  thread_alive (step self a) = false
  /\ loop_rest (step self a) = []
  /\ loop_call (step self a) = None
  /\ invoked (step self a) = invoked self
  /\ func_calls (step self a) = func_calls self
  /\ printed (step self a) = printed self.
Proof.
  intros Halive Hrest Hcall.
  destruct a as [offset func now|offset func now|target func now|now| |r now| | ];
    cbn [step].
  - destruct (on_sunrise_register offset func now self) as (code & [-> | (when & ->)]);
      simpl; repeat split; assumption.
  - destruct (on_sunset_register offset func now self) as (code & [-> | (when & ->)]);
      simpl; repeat split; assumption.
  - destruct (on_localtime_register target func now self) as (code & when & ->).
    simpl. repeat split; assumption.
  - unfold loop_begin. rewrite Hrest, Hcall, Halive, andb_false_r.
    repeat split; assumption.
  - unfold loop_next. rewrite Hcall, Hrest. repeat split; assumption.
  - unfold job_return. rewrite Hcall. repeat split; assumption.
  - unfold job_exit. rewrite Hcall. repeat split; assumption.
  - simpl. repeat split; assumption.
Qed.

Lemma ended_run (actions : list action) (self : Location) :
  thread_alive self = false -> loop_rest self = [] -> loop_call self = None ->
  invoked (run self actions) = invoked self
  /\ func_calls (run self actions) = func_calls self
  /\ printed (run self actions) = printed self.
Proof.
  revert self. induction actions as [|a actions IH]; intros self Halive Hrest Hcall.
  - repeat split; reflexivity.
  - destruct (ended_step self a Halive Hrest Hcall) as (H1 & H2 & H3 & H4 & H5 & H6).
    destruct (IH (step self a) H1 H2 H3) as (I1 & I2 & I3).
    cbn [run fold_left] in *. unfold run in *. rewrite I1, I2, I3.
    repeat split; assumption.
Qed.

End SchedulerSteps.

Section SchedulerClaims.

(** C9.  Whatever is done to a new location (decorators applied at any
    moment, rounds and steps of the scheduler loop, jobs that return or
    raise, [stop]): no entry of the list has its job called twice; while a
    job is being executed its entry is not in the list (it is removed before
    the call); and no entry whose job has been called is in the list. *)
Theorem no_entry_fires_twice (sun : Sun) (actions : list action) :
  NoDup (invoked (run (Location_init sun) actions))
  /\ (forall cb,
        loop_call (run (Location_init sun) actions) = Some cb ->
        Callback.serial cb ∈ invoked (run (Location_init sun) actions)
        /\ Callback.serial cb
             ∉ serials (_pending_callbacks (run (Location_init sun) actions)))
  /\ (forall n,
        n ∈ invoked (run (Location_init sun) actions) ->
        n ∉ serials (_pending_callbacks (run (Location_init sun) actions))).
Proof.
  pose proof (consistent_run actions _ (consistent_init sun)) as H.
  split; [exact (invoked_nodup _ H)|]. split.
  - intros cb Hcall. pose proof (call_invoked _ H cb Hcall) as Hcb.
    split; [exact Hcb|]. exact (invoked_removed _ H _ Hcb).
  - exact (invoked_removed _ H).
Qed.

(** C2 (as the code has it).  When the loop takes a due entry [cb] that is in
    the list, the entry is removed and the decorated function is called
    once, however its call ends.  If the function returns and the job has an
    occurrence on the day after the day on which it reads the clock, the job
    appends exactly one new entry, for the same job, at that occurrence,
    however late the entry was taken.  If the function returns and the sun
    library raises for that day, or if the function raises an [Exception],
    the exception leaves the job before the append: the loop prints it and
    no new entry is appended.  If the function raises an exception that is
    not an [Exception], the loop does not catch it: nothing is printed, no
    new entry is appended, the scheduler thread ends, and no job is called
    by this location afterwards. *)
Theorem fire_reschedules (self : Location) (cb : Callback.t)
    (rest pending : list Callback.t) (now : datetime) :
  loop_call self = None ->
  loop_rest self = cb :: rest ->
  Callback.datetime cb <= loop_now self ->
  list_remove cb (_pending_callbacks self) = Some pending ->
  (forall func_result,
      func_calls (run self [LoopNext; JobReturn func_result now])
      = func_calls self ++ [func_of (Callback.callable cb)]
      /\ invoked (run self [LoopNext; JobReturn func_result now])
         = invoked self ++ [Callback.serial cb])
  /\ (forall u when,
        occurrence (_sun self) (job_code (Callback.callable cb)) (day_of now + 1) = Ok when ->
        _pending_callbacks (run self [LoopNext; JobReturn (Ok u) now])
        = pending
            ++ [ {| Callback.serial := created self;
                    Callback.datetime := when;
                    Callback.callable := Callback.callable cb |} ]
        /\ printed (run self [LoopNext; JobReturn (Ok u) now]) = printed self)
  /\ (forall u e,
        occurrence (_sun self) (job_code (Callback.callable cb)) (day_of now + 1) = Raise e ->
        _pending_callbacks (run self [LoopNext; JobReturn (Ok u) now]) = pending
        /\ printed (run self [LoopNext; JobReturn (Ok u) now]) = printed self ++ [e])
  /\ (forall e,
        _pending_callbacks (run self [LoopNext; JobReturn (Raise e) now]) = pending
        /\ printed (run self [LoopNext; JobReturn (Raise e) now]) = printed self ++ [e])
  /\ (_pending_callbacks (run self [LoopNext; JobExit]) = pending
      /\ printed (run self [LoopNext; JobExit]) = printed self
      /\ thread_alive (run self [LoopNext; JobExit]) = false
      /\ forall actions,
          func_calls (run self (LoopNext :: JobExit :: actions))
          = func_calls self ++ [func_of (Callback.callable cb)]
          /\ invoked (run self (LoopNext :: JobExit :: actions))
             = invoked self ++ [Callback.serial cb]
          /\ printed (run self (LoopNext :: JobExit :: actions)) = printed self).
Proof.
  intros Hcall Hrest Hdue Hremove.
  assert (loop_next self
          = log_call (with_loop self pending (loop_now self) rest (Some cb)) cb) as Hnext.
  { unfold loop_next. rewrite Hcall, Hrest.
    apply Z.geb_le in Hdue. rewrite Hdue, Hremove. reflexivity. }
  unfold run. cbn [fold_left step]. rewrite Hnext.
  split; [|split; [|split; [|split]]].
  - intros func_result. unfold job_return. cbn [loop_call log_call with_loop].
    destruct func_result as [u|e]; [rewrite job_reschedule_append|].
    + cbn [_sun log_call with_loop].
      destruct (occurrence _ _ _); split; reflexivity.
    + split; reflexivity.
  - intros u when Hwhen. unfold job_return. cbn [loop_call log_call with_loop].
    rewrite job_reschedule_append. cbn [_sun log_call with_loop]. rewrite Hwhen.
    split; reflexivity.
  - intros u e Hwhen. unfold job_return. cbn [loop_call log_call with_loop].
    rewrite job_reschedule_append. cbn [_sun log_call with_loop]. rewrite Hwhen.
    split; reflexivity.
  - intros e. split; reflexivity.
  - split; [reflexivity|]. split; [reflexivity|]. split; [reflexivity|].
    intros actions.
    match goal with
    | |- context [fold_left step actions ?s0] =>
        destruct (ended_run actions s0 eq_refl eq_refl eq_refl) as (H1 & H2 & H3)
    end.
    unfold run in H1, H2, H3. rewrite H1, H2, H3. repeat split; reflexivity.
Qed.

(** C4 (as the code has it).  Each decorator makes a new job.  When today's
    occurrence of the job (the event or the target time of the day of [now],
    plus the offset that was given) is strictly after [now], it appends one
    entry for the job at that instant; when today's occurrence is at or
    before [now], it appends one entry at tomorrow's occurrence.  When the
    sun library raises for an occurrence that is needed, [on_sunrise] and
    [on_sunset] end with that exception and append nothing. *)
Theorem first_fire_instant (self : Location) (func : string) (now : datetime) :
  (forall offset,
      first_fire self now (sunrise_job func (given_offset offset))
        (fst (on_sunrise offset func now self)) (snd (on_sunrise offset func now self)))
  /\ (forall offset,
        first_fire self now (sunset_job func (given_offset offset))
          (fst (on_sunset offset func now self)) (snd (on_sunset offset func now self)))
  /\ (forall target_time,
        first_fire self now (localtime_job func target_time)
          (on_localtime target_time func now self) (Ok tt)).
Proof.
  assert (forall (A : Type) (x y : A), @Ok A x = Ok y -> x = y) as Hok
    by (intros A x y H; injection H as ->; reflexivity).
  assert (forall (A : Type) (x y : pyexc), @Raise A x = Raise y -> x = y) as Hraise
    by (intros A x y H; injection H as ->; reflexivity).
  split; [|split].
  - intros offset. rewrite on_sunrise_unfold. unfold first_fire.
    destruct (occurrence _ _ (day_of now)) as [today|e];
      [destruct (Z.leb_spec today now) as [Hle|Hlt];
       [destruct (occurrence _ _ (day_of now + 1)) as [tomorrow|e]|]|].
    all: repeat split; intros.
    all: repeat match goal with
                | H : Ok _ = Ok _ |- _ => apply Hok in H; subst
                | H : Raise _ = Raise _ |- _ => apply Hraise in H; subst
                end.
    all: try discriminate; try lia; reflexivity.
  - intros offset. rewrite on_sunset_unfold. unfold first_fire.
    destruct (occurrence _ _ (day_of now)) as [today|e];
      [destruct (Z.leb_spec today now) as [Hle|Hlt];
       [destruct (occurrence _ _ (day_of now + 1)) as [tomorrow|e]|]|].
    all: repeat split; intros.
    all: repeat match goal with
                | H : Ok _ = Ok _ |- _ => apply Hok in H; subst
                | H : Raise _ = Raise _ |- _ => apply Hraise in H; subst
                end.
    all: try discriminate; try lia; reflexivity.
  - intros target_time. rewrite on_localtime_unfold. unfold first_fire, occurrence.
    destruct (Z.leb_spec (instant_at (day_of now) target_time) now) as [Hle|Hlt].
    all: repeat split; intros.
    all: repeat match goal with
                | H : Ok _ = Ok _ |- _ => apply Hok in H; subst
                | H : Raise _ = Raise _ |- _ => apply Hraise in H; subst
                end.
    all: try discriminate; try lia; reflexivity.
Qed.

End SchedulerClaims.

(** C2, the counterexample: [f], due at 10:00, is called at 10:05 and raises;
    its entry is gone and no entry for the next day has been inserted. *)
Lemma raising_job_not_rescheduled :
  _pending_callbacks location_at_ten = [entry_f]
  /\ func_calls (run (Location_init example_sun) f_raises) = ["f"%string]
  /\ invoked (run (Location_init example_sun) f_raises) = [1%nat]
  /\ printed (run (Location_init example_sun) f_raises) = [Exception "RuntimeError"]
  /\ _pending_callbacks (run (Location_init example_sun) f_raises) = [].
Proof. repeat split; reflexivity. Qed.

Lemma fire_reschedules_witness :
  (_pending_callbacks (run location_at_ten [LoopNext; JobReturn (Ok tt) (ten + 5 * minute)])
   = [] ++ [ {| Callback.serial := 2;
                Callback.datetime := 34 * hour;
                Callback.callable := Callback.callable entry_f |} ]
   /\ printed (run location_at_ten [LoopNext; JobReturn (Ok tt) (ten + 5 * minute)]) = [])
  /\ (_pending_callbacks (run location_polar [LoopNext; JobReturn (Ok tt) (9 * hour)]) = []
      /\ printed (run location_polar [LoopNext; JobReturn (Ok tt) (9 * hour)])
         = [] ++ [Exception "SunTimeException"]).
Proof.
  split.
  - apply (proj1 (proj2 (fire_reschedules location_at_ten entry_f [] []
                           (ten + 5 * minute) eq_refl eq_refl
                           ltac:(apply Z.leb_le; reflexivity) eq_refl))
             tt (34 * hour)).
    reflexivity.
  - apply (proj1 (proj2 (proj2 (fire_reschedules location_polar entry_polar [] []
                                  (9 * hour) eq_refl eq_refl
                                  ltac:(apply Z.leb_le; reflexivity) eq_refl)))
             tt (Exception "SunTimeException")).
    reflexivity.
Defined.

(** C4, the counterexample: a job is registered at 09:00 of day 0 for the
    sunrise, where the sun rose at 08:17 and does not rise the day after.
    Today's occurrence is before now, yet no entry for tomorrow is made:
    the registration ends with the exception of the sun library. *)
Lemma first_fire_polar :
  occurrence polar_sun (sunrise_job "f" 0) (day_of (9 * hour)) = Ok (8 * hour + 17 * minute)
  /\ 8 * hour + 17 * minute <= 9 * hour
  /\ occurrence polar_sun (sunrise_job "f" 0) (day_of (9 * hour) + 1)
     = Raise (Exception "SunTimeException")
  /\ _pending_callbacks (fst (on_sunrise None "f" (9 * hour) (Location_init polar_sun))) = []
  /\ snd (on_sunrise None "f" (9 * hour) (Location_init polar_sun))
     = Raise (Exception "SunTimeException").
Proof. repeat split; try reflexivity. apply Z.leb_le. reflexivity. Qed.

Lemma first_fire_instant_witness :
  first_fire (Location_init example_sun) (8 * hour) (localtime_job "f" ten)
    (on_localtime ten "f" (8 * hour) (Location_init example_sun)) (Ok tt)
  /\ _pending_callbacks (on_localtime ten "f" (8 * hour) (Location_init example_sun))
     = [ {| Callback.serial := 1; Callback.datetime := 10 * hour;
            Callback.callable := {| job_id := 0; job_code := localtime_job "f" ten |} |} ]
  /\ _pending_callbacks
       (fst (on_sunrise (Some hour) "f" (10 * hour) (Location_init example_sun)))
     = [ {| Callback.serial := 1; Callback.datetime := 33 * hour + 17 * minute;
            Callback.callable := {| job_id := 0; job_code := sunrise_job "f" hour |} |} ].
Proof.
  split; [|split].
  - apply (proj2 (proj2 (first_fire_instant (Location_init example_sun) "f" (8 * hour)))).
  - apply (proj1 (proj2 (proj2 (first_fire_instant (Location_init example_sun) "f"
                                  (8 * hour))) ten) (10 * hour)).
    + reflexivity.
    + unfold hour. lia.
  - apply (proj1 (proj2 (proj1 (first_fire_instant (Location_init example_sun) "f"
                                  (10 * hour)) (Some hour)))
             (9 * hour + 17 * minute) (33 * hour + 17 * minute)).
    + reflexivity.
    + unfold hour, minute. lia.
    + reflexivity.
Defined.

(* ===================================================================== *)
(** * Part VIII: value equality, and the examples of the tests            *)
(* ===================================================================== *)

Section Examples.

Lemma bytes_eqb_eq (x y : bytes) : bytes_eqb x y = true <-> x = y.
Proof.
  revert y. induction x as [|c x IH]; intros [|d y]; simpl; try (split; congruence).
  rewrite andb_true_iff, IH. split.
  - intros [Hc ->]. apply Byte.byte_dec_bl in Hc. congruence.
  - intros [= -> ->]. split; [apply Byte.byte_dec_lb|]; reflexivity.
Qed.

(** On texts and on raw payloads [==] is equality of the contents. *)
Lemma py_eq_str (x y : string) : py_eq (VStr x) (VStr y) = true <-> x = y.
Proof. simpl. apply String.eqb_eq. Qed.

Lemma py_eq_bytes (x y : bytes) : py_eq (VBytes x) (VBytes y) = true <-> x = y.
Proof. simpl. apply bytes_eqb_eq. Qed.

(** Dicts are compared whatever the order of their items, and [True == 1]. *)
Example py_eq_dict :
  py_eq (VDict [("a"%string, VInt 1); ("b"%string, VBool true)])
        (VDict [("b"%string, VInt 1); ("a"%string, VInt 1)]) = true
  /\ py_eq (VDict [("a"%string, VInt 1)]) (VDict [("a"%string, VInt 2)]) = false
  /\ py_eq (VStr "1") (VInt 1) = false.
Proof. repeat split; reflexivity. Qed.

(** One call of [notify] with the payload [{"x":1}] delivers the raw bytes,
    the parsed document and the text, each to the subscriber of that type. *)
Example notify_three_types :
  SubscriberManager.notify
    (manager_of example_lib
       [ (def1_typed "s" (Plain Cstr) returns, VNone);
         (def1 "g" returns, VNone);
         (def1_typed "d" (Alias Cdict) returns, VNone) ])
    doc_x1
  = ([ Convert (Plain Cbytes); Call (def1 "g" returns) [VBytes doc_x1];
       Convert (Plain Cdict);
       Call (def1_typed "d" (Alias Cdict) returns) [VDict [("x"%string, VInt 1)]];
       Convert (Plain Cstr);
       Call (def1_typed "s" (Plain Cstr) returns) [VStr (string_of_list_byte doc_x1)] ],
     Ok tt).
Proof. reflexivity. Qed.

(** The payload [off] does not trigger the subscriber that filters on [on];
    it triggers the subscriber without filter, and the one without parameter
    that filters on [off]. *)
Example notify_filter_on_off :
  SubscriberManager.notify manager_sgz (b "off")
  = ([ Convert (Plain Cstr);
       Call (def1_typed "g" (Plain Cstr) returns) [VStr "off"];
       Call (def0 "z" returns) [] ],
     Ok tt)
  /\ SubscriberManager.notify manager_sgz (b "on")
     = ([ Convert (Plain Cstr);
          Call (def1_typed "s" (Plain Cstr) returns) [VStr "on"];
          Call (def1_typed "g" (Plain Cstr) returns) [VStr "on"] ],
        Ok tt).
Proof. split; reflexivity. Qed.

(** A message on a topic nobody subscribed to is dropped. *)
Example message_without_subscribers :
  _on_mqtt_message module_init "door" (b "open") = NoSubscribers.
Proof. reflexivity. Qed.

(** test_on_localtime_before_target and test_on_localtime_after_target:
    registered at 08:00, 10:00 is today's; registered at 12:00, tomorrow's. *)
Example on_localtime_before_and_after :
  _pending_callbacks (on_localtime ten "f" (8 * hour) (Location_init example_sun))
  = [ {| Callback.serial := 1; Callback.datetime := combine 0 ten;
         Callback.callable := {| job_id := 0; job_code := localtime_job "f" ten |} |} ]
  /\ _pending_callbacks (on_localtime ten "f" (12 * hour) (Location_init example_sun))
     = [ {| Callback.serial := 1; Callback.datetime := combine 1 ten;
            Callback.callable := {| job_id := 0; job_code := localtime_job "f" ten |} |} ].
Proof. split; reflexivity. Qed.

(** test_on_sunrise_before_sunrise, test_on_sunrise_after_sunrise and
    test_on_sunrise_with_offset, with the sun of the examples. *)
Example on_sunrise_before_and_after :
  _pending_callbacks
    (fst (on_sunrise None "f" (7 * hour + 17 * minute) (Location_init example_sun)))
  = [ {| Callback.serial := 1; Callback.datetime := combine 0 (8 * hour + 17 * minute);
         Callback.callable := {| job_id := 0; job_code := sunrise_job "f" 0 |} |} ]
  /\ _pending_callbacks
       (fst (on_sunrise None "f" (9 * hour + 17 * minute) (Location_init example_sun)))
     = [ {| Callback.serial := 1; Callback.datetime := combine 1 (8 * hour + 17 * minute);
            Callback.callable := {| job_id := 0; job_code := sunrise_job "f" 0 |} |} ]
  /\ _pending_callbacks
       (fst (on_sunrise (Some (-15 * minute)) "f" (7 * hour + 17 * minute)
               (Location_init example_sun)))
     = [ {| Callback.serial := 1; Callback.datetime := combine 0 (8 * hour + 2 * minute);
            Callback.callable :=
              {| job_id := 0; job_code := sunrise_job "f" (-15 * minute) |} |} ].
Proof. repeat split; reflexivity. Qed.

(** A job that returns is called again the next day, and once only each
    day: two rounds of the loop on day 0, one on day 1. *)
Example daily_rounds :
  func_calls
    (run (Location_init example_sun)
       [ OnLocaltime ten "f" (8 * hour);
         LoopBegin (ten + 1); LoopNext; JobReturn (Ok tt) (ten + 2);
         LoopBegin (ten + 1000001); LoopNext;
         LoopBegin (combine 1 ten); LoopNext; JobReturn (Ok tt) (combine 1 ten) ])
  = ["f"%string; "f"%string]
  /\ invoked
       (run (Location_init example_sun)
          [ OnLocaltime ten "f" (8 * hour);
            LoopBegin (ten + 1); LoopNext; JobReturn (Ok tt) (ten + 2);
            LoopBegin (ten + 1000001); LoopNext;
            LoopBegin (combine 1 ten); LoopNext; JobReturn (Ok tt) (combine 1 ten) ])
     = [1%nat; 2%nat].
Proof. split; reflexivity. Qed.

(** [def n(payload: None)] is registered without a type and without a check
    of its filter; a message that passes the filter calls it without
    argument, which raises [TypeError] and ends the dispatch. *)
Example notify_none_annotated :
  SubscriberManager.subscribers_by_type
    (manager_of example_lib [ (def1_none "n" returns, VStr "on") ])
  = [ (Plain Cbytes, []); (Plain Cdict, []);
      (Plain Cstr, [ {| callback := def1_none "n" returns; datatype := None;
                        payload_filter := VStr "on" |} ]) ]
  /\ SubscriberManager.notify
       (manager_of example_lib [ (def1_none "n" returns, VStr "on") ]) (b "on")
     = ([ Convert (Plain Cstr); Call (def1_none "n" returns) [] ],
        Raise (Exception "TypeError")).
Proof. split; reflexivity. Qed.

(** A [functools.partial] object is registered like the function it wraps
    when it passes the checks; when it does not, [add_subscriber] raises
    instead of reporting. *)
Example add_subscriber_partial :
  snd (SubscriberManager.add_subscriber (SubscriberManager.__init__ example_lib)
         (partial 1 returns) VNone)
  = Ok (Registered (Plain Cbytes))
  /\ SubscriberManager.add_subscriber (SubscriberManager.__init__ example_lib)
       (partial 1 returns) (VStr "on")
     = (SubscriberManager.__init__ example_lib, Raise (Exception "AttributeError")).
Proof. split; reflexivity. Qed.

(** An annotation that cannot be hashed ([list[int]] written as [[int]])
    raises [TypeError] at the lookup. *)
Example add_subscriber_unhashable :
  SubscriberManager.add_subscriber (SubscriberManager.__init__ example_lib)
    (def1_typed "f" (Object "[int]" true false) returns) VNone
  = (SubscriberManager.__init__ example_lib, Raise (Exception "TypeError")).
Proof. reflexivity. Qed.

(** A function that ends the scheduler thread: the entries that were due
    after it are not taken, and later rounds do nothing. *)
Example job_exit_ends_rounds :
  func_calls
    (run (Location_init example_sun)
       [ OnLocaltime ten "f" (8 * hour); OnLocaltime ten "g" (8 * hour);
         LoopBegin (ten + 1); LoopNext; JobExit; LoopNext;
         LoopBegin (ten + 2); LoopNext ])
  = ["f"%string]
  /\ job_ids
       (_pending_callbacks
          (run (Location_init example_sun)
             [ OnLocaltime ten "f" (8 * hour); OnLocaltime ten "g" (8 * hour);
               LoopBegin (ten + 1); LoopNext; JobExit; LoopNext;
               LoopBegin (ten + 2); LoopNext ]))
     = [2%nat].
Proof. split; reflexivity. Qed.

End Examples.

(* ===================================================================== *)
(** * Part IX: what a manager keeps, and what a dispatch can contain      *)
(* ===================================================================== *)

Section Kept.
Import SubscriberManager.

Lemma registered_snoc (ty : pytype) (history : list (Callable * pyval))
    (cb : Callable) (f : pyval) :
  registered ty (history ++ [(cb, f)])
  = registered ty history
      ++ (if accepted cb f && bool_decide (effective_type cb f = ty)
          then [subscriber_of (cb, f)] else []).
Proof.
  unfold registered. rewrite List.filter_app, map_app. simpl.
  destruct (accepted cb f && bool_decide (effective_type cb f = ty)); reflexivity.
Qed.

(** The table of a manager whose lists are given by [lists]. *)
Lemma dict_lookup_builtin (lists : pytype -> list Subscriber) (ty : pytype) :
  dict_lookup ty (map (fun ty => (ty, lists ty)) builtin_types)
  = if bool_decide (ty ∈ builtin_types) then Some (lists ty) else None.
Proof.
  unfold builtin_types. simpl.
  repeat (destruct (decide _) as [->|?]; [reflexivity|]).
  rewrite bool_decide_eq_false_2; [reflexivity|].
  rewrite !elem_of_cons, elem_of_nil. tauto.
Qed.

Lemma dict_set_builtin (lists : pytype -> list Subscriber) (ty : pytype)
    (subscribers : list Subscriber) :
  ty ∈ builtin_types ->
  dict_set ty subscribers (map (fun ty => (ty, lists ty)) builtin_types)
  = map (fun ty' => (ty', if decide (ty = ty') then subscribers else lists ty'))
      builtin_types.
Proof.
  unfold builtin_types. rewrite !elem_of_cons, elem_of_nil.
  intros [-> | [-> | [-> | []]]]; reflexivity.
Qed.

Lemma accepted_unfold (cb : Callable) (f : pyval) (params : list annotation) :
  cb_signature cb = Ok params ->
  accepted cb f
  = negb (1 <? length params)%nat
    && negb (negb (is_none f)
             && match callback_type cb with
                | Some ct => negb (bool_decide (class_of f = ct))
                | None => false
                end)
    && bool_decide (effective_type cb f ∈ builtin_types).
Proof.
  intros Hsig. unfold accepted. rewrite Hsig. f_equal. f_equal.
  - rewrite Nat.ltb_antisym, negb_involutive. reflexivity.
  - destruct (is_none f); simpl; [reflexivity|].
    destruct (callback_type cb); [rewrite negb_involutive|]; reflexivity.
Qed.

Lemma unhashable_not_builtin (ty : pytype) :
  hashable ty = false -> bool_decide (ty ∈ builtin_types) = false.
Proof.
  intros Hhash. apply bool_decide_eq_false_2. unfold builtin_types.
  rewrite !elem_of_cons, elem_of_nil. intros [-> | [-> | [-> | []]]]; discriminate.
Qed.

(** A manager keeps, for each of its types, the accepted registrations of
    that type in the order in which they were made. *)
Lemma manager_of_table (L : PyLib) (history : list (Callable * pyval)) :
  subscribers_by_type (manager_of L history)
  = map (fun ty => (ty, registered ty history)) builtin_types.
Proof.
  induction history as [|[cb f] history IH] using rev_ind; [reflexivity|].
  rewrite manager_of_snoc, add_subscriber_unfold, IH, dict_lookup_builtin.
  assert (forall ty, accepted cb f = false ->
                     registered ty (history ++ [(cb, f)]) = registered ty history) as Hdrop.
  { intros ty H. rewrite registered_snoc, H. simpl. apply app_nil_r. }
  assert (accepted cb f = false ->
          subscribers_by_type (manager_of L history)
          = map (fun ty => (ty, registered ty (history ++ [(cb, f)]))) builtin_types)
    as Hsame.
  { intros H. rewrite IH. apply map_ext. intros ty. f_equal. symmetry. apply Hdrop, H. }
  destruct (cb_signature cb) as [params|e] eqn:Hsig.
  2: { cbn [fst]. apply Hsame. unfold accepted. rewrite Hsig. reflexivity. }
  pose proof (accepted_unfold cb f params Hsig) as Hacc.
  destruct (1 <? length params)%nat.
  { rewrite log_and_return_fst. apply Hsame, Hacc. }
  match goal with |- context [if ?c then _ else _] => destruct c end.
  { rewrite log_and_return_fst. apply Hsame, Hacc. }
  destruct (hashable (effective_type cb f)) eqn:Hhash; cbn [negb].
  2: { cbn [fst]. apply Hsame. rewrite Hacc, (unhashable_not_builtin _ Hhash).
       apply andb_false_r. }
  destruct (bool_decide (effective_type cb f ∈ builtin_types)) eqn:Hin.
  - simpl in Hacc. cbn [fst subscribers_by_type]. apply bool_decide_eq_true_1 in Hin.
    rewrite dict_set_builtin by exact Hin.
    apply map_ext. intros ty. f_equal. rewrite registered_snoc, Hacc. simpl.
    destruct (decide (effective_type cb f = ty)) as [<-|Hne].
    + rewrite bool_decide_eq_true_2 by reflexivity. reflexivity.
    + rewrite bool_decide_eq_false_2 by exact Hne. symmetry. apply app_nil_r.
  - rewrite log_and_return_fst. apply Hsame. rewrite Hacc. apply andb_false_r.
Qed.

Lemma init_converters (L : PyLib) :
  converters (__init__ L)
  = [ (Plain Cbytes, _convert_to_bytes);
      (Plain Cdict, _convert_to_dict L);
      (Plain Cstr, _convert_to_str L) ].
Proof. reflexivity. Qed.

Lemma manager_of_lookup (L : PyLib) (history : list (Callable * pyval)) (ty : pytype) :
  dict_lookup ty (subscribers_by_type (manager_of L history))
  = if bool_decide (ty ∈ builtin_types) then Some (registered ty history) else None.
Proof. rewrite manager_of_table. apply dict_lookup_builtin. Qed.

Lemma registered_elem (ty : pytype) (history : list (Callable * pyval)) (s : Subscriber) :
  In s (registered ty history) ->
  exists cb f, In (cb, f) history /\ s = subscriber_of (cb, f)
               /\ accepted cb f = true /\ effective_type cb f = ty.
Proof.
  unfold registered. rewrite in_map_iff. intros ([cb f] & <- & Hin).
  apply List.filter_In in Hin as [Hin Hok]. simpl in Hok.
  apply andb_true_iff in Hok as [Hacc Hty]. apply bool_decide_eq_true_1 in Hty.
  exists cb, f. repeat split; assumption.
Qed.

(** X1.  A manager reached from a new one by any history of calls of
    [add_subscriber], whether they return or raise, has exactly the three
    types [bytes], [dict], [str], in this order, each with its own
    converter, and keeps under each type the registrations of the history
    that passed the checks (a signature of at most one parameter, a filter
    of the declared type if one is declared, a type with a converter) and
    resolve to that type, in the order in which they were made: no
    registration is lost, reordered, filed twice or filed under another
    type. *)
Theorem manager_keeps_registrations (L : PyLib) (history : list (Callable * pyval)) :
  subscribers_by_type (manager_of L history)
  = [ (Plain Cbytes, registered (Plain Cbytes) history);
      (Plain Cdict, registered (Plain Cdict) history);
      (Plain Cstr, registered (Plain Cstr) history) ]
  /\ converters (manager_of L history)
     = [ (Plain Cbytes, _convert_to_bytes);
         (Plain Cdict, _convert_to_dict L);
         (Plain Cstr, _convert_to_str L) ].
Proof.
  split.
  - apply manager_of_table.
  - rewrite (proj2 (manager_of_shape L history)). apply init_converters.
Qed.

(** X2.  In a manager reached from a new one, a subscriber kept under a type
    has no filter or a filter of exactly that type, and the type is one of
    the three with a converter.  It has recorded no [datatype] when its
    callback has no parameter or one annotated [None]; otherwise its
    callback has one parameter and it has recorded that very type, but for
    a parameter annotated with an object that counts as false, which is
    recorded as it is for a subscriber kept under [bytes] without filter. *)
Theorem kept_subscriber_agrees_with_type (L : PyLib) (history : list (Callable * pyval))
    (ty : pytype) (subscribers : list Subscriber) (s : Subscriber) :
  dict_lookup ty (subscribers_by_type (manager_of L history)) = Some subscribers ->
  In s subscribers ->
  (payload_filter s = VNone \/ class_of (payload_filter s) = ty)
  /\ ((datatype s = None
       /\ (cb_signature (callback s) = Ok []
           \/ cb_signature (callback s) = Ok [AnnotNone]))
      \/ (datatype s = Some ty /\ exists a, cb_signature (callback s) = Ok [a])
      \/ (exists name can_hash,
             datatype s = Some (Object name false can_hash)
             /\ cb_signature (callback s) = Ok [Annot (Object name false can_hash)]
             /\ ty = Plain Cbytes /\ payload_filter s = VNone))
  /\ ty ∈ builtin_types.
Proof.
  intros Hlookup Hin.
  assert (ty ∈ builtin_types) as Hty.
  { rewrite manager_of_lookup in Hlookup.
    destruct (bool_decide (ty ∈ builtin_types)) eqn:Hty; [|discriminate].
    apply bool_decide_eq_true_1 in Hty. exact Hty. }
  destruct (manager_of_subscribers L history ty _ s Hlookup Hin)
    as (Hdt & (params & Hsig & Hlen) & Hfilter & Heff).
  rewrite Hdt. unfold effective_type, filter_type_or_bytes in Heff.
  unfold callback_type in *. rewrite Hsig in *.
  split; [|split; [|exact Hty]].
  - destruct (is_none (payload_filter s)) eqn:Hnone;
      [left; apply is_none_true; exact Hnone|].
    destruct Hfilter as [Hf|Hf]; [left; exact Hf|]. right.
    destruct params as [|[| |[c|origin|name truth can_hash]] [|a params]];
      simpl in Hlen; try lia; try exact Heff;
      try (rewrite <- Heff; apply Hf; reflexivity).
    specialize (Hf _ eq_refl). discriminate Hf.
  - destruct params as [|[| |[c|origin|name truth can_hash]] [|a params]];
      simpl in Hlen; try lia.
    + left. split; [reflexivity|left; reflexivity].
    + right. left. simpl in Heff. subst ty. split; [reflexivity|eexists; reflexivity].
    + left. split; [reflexivity|right; reflexivity].
    + right. left. simpl in Heff. subst ty. split; [reflexivity|eexists; reflexivity].
    + right. left. simpl in Heff. subst ty. split; [reflexivity|eexists; reflexivity].
    + assert (payload_filter s = VNone) as Hnone.
      { destruct Hfilter as [Hf|Hf]; [exact Hf|].
        specialize (Hf _ eq_refl). discriminate Hf. }
      rewrite Hnone in Heff. simpl in Heff. destruct truth.
      * right. left. subst ty. split; [reflexivity|eexists; reflexivity].
      * right. right. exists name, can_hash. subst ty. repeat split; assumption.
Qed.

End Kept.

Lemma kept_subscriber_agrees_with_type_witness :
  (payload_filter {| callback := def1_none "n" returns; datatype := None;
                     payload_filter := VStr "on" |} = VNone
   \/ class_of (payload_filter {| callback := def1_none "n" returns; datatype := None;
                                  payload_filter := VStr "on" |}) = Plain Cstr)
  /\ ((datatype {| callback := def1_none "n" returns; datatype := None;
                   payload_filter := VStr "on" |} = None
       /\ (cb_signature (callback {| callback := def1_none "n" returns; datatype := None;
                                     payload_filter := VStr "on" |}) = Ok []
           \/ cb_signature (callback {| callback := def1_none "n" returns;
                                        datatype := None;
                                        payload_filter := VStr "on" |})
              = Ok [AnnotNone]))
      \/ (datatype {| callback := def1_none "n" returns; datatype := None;
                      payload_filter := VStr "on" |} = Some (Plain Cstr)
          /\ exists a,
              cb_signature (callback {| callback := def1_none "n" returns;
                                        datatype := None;
                                        payload_filter := VStr "on" |}) = Ok [a])
      \/ (exists name can_hash,
             datatype {| callback := def1_none "n" returns; datatype := None;
                         payload_filter := VStr "on" |}
             = Some (Object name false can_hash)
             /\ cb_signature (callback {| callback := def1_none "n" returns;
                                          datatype := None;
                                          payload_filter := VStr "on" |})
                = Ok [Annot (Object name false can_hash)]
             /\ Plain Cstr = Plain Cbytes
             /\ payload_filter {| callback := def1_none "n" returns; datatype := None;
                                  payload_filter := VStr "on" |} = VNone))
  /\ Plain Cstr ∈ builtin_types.
Proof.
  apply (kept_subscriber_agrees_with_type example_lib
           [ (def1_typed "s" (Plain Cstr) returns, VStr "on");
             (def1_none "n" returns, VStr "on") ]
           (Plain Cstr)
           [ {| callback := def1_typed "s" (Plain Cstr) returns;
                datatype := Some (Plain Cstr); payload_filter := VStr "on" |};
             {| callback := def1_none "n" returns; datatype := None;
                payload_filter := VStr "on" |} ]).
  - reflexivity.
  - simpl. right. left. reflexivity.
Defined.

Section Traces.
Import SubscriberManager.

(** What [notify] did is the beginning of what was planned. *)
Lemma notify_trace_planned (self : t) (payload : bytes) (ev : event) :
  In ev (fst (notify self payload)) ->
  In ev (plan (converters self) payload (subscribers_by_type self)).
Proof.
  rewrite notify_until_raise. intros Hin.
  destruct (until_raise_prefix (plan (converters self) payload (subscribers_by_type self)))
    as (rest & Heq & _).
  rewrite Heq. apply in_or_app. left. exact Hin.
Qed.

Lemma calls_for_elem (v : pyval) (subscribers : list Subscriber) (ev : event) :
  In ev (calls_for v subscribers) ->
  exists s, In s subscribers /\ passes v s = true /\ ev = call_of v s.
Proof.
  unfold calls_for. rewrite in_map_iff. intros (s & <- & Hin).
  apply List.filter_In in Hin as [Hin Hpass]. exists s. repeat split; assumption.
Qed.


Lemma plan_errors (convs : list (pytype * converter)) (payload : bytes)
    (items : list (pytype * list Subscriber)) (ty : pytype) (e : pyexc) :
  In (LogError ty e) (plan convs payload items) ->
  exists subscribers,
    In (ty, subscribers) items /\ subscribers <> []
    /\ match dict_lookup ty convs with
       | Some convert => convert payload = Raise e
       | None => e = Exception "KeyError"
       end.
Proof.
  induction items as [|[ty0 subscribers] items IH]; simpl; [intros []|].
  assert (In (LogError ty e) (plan convs payload items) ->
          exists subscribers0,
            ((ty0, subscribers) = (ty, subscribers0) \/ In (ty, subscribers0) items)
            /\ subscribers0 <> []
            /\ match dict_lookup ty convs with
               | Some convert => convert payload = Raise e
               | None => e = Exception "KeyError"
               end) as Hrest.
  { intros H. destruct (IH H) as (l0 & H1 & H2).
    exists l0. split; [right; exact H1|exact H2]. }
  destruct subscribers as [|s0 subscribers]; [exact Hrest|].
  destruct (dict_lookup ty0 convs) as [convert|] eqn:Hconv.
  - destruct (convert payload) as [v|e0] eqn:Hv.
    + intros [H|H]; [discriminate|].
      apply in_app_or in H as [H|H]; [|exact (Hrest H)].
      apply calls_for_elem in H as (s & _ & _ & Hev). discriminate.
    + intros [H|[H|H]]; [discriminate| |exact (Hrest H)].
      injection H as <- <-. exists (s0 :: subscribers).
      split; [left; reflexivity|]. split; [discriminate|].
      rewrite Hconv. exact Hv.
  - intros [H|H]; [|exact (Hrest H)].
    injection H as <- <-. exists (s0 :: subscribers).
    split; [left; reflexivity|]. split; [discriminate|].
    rewrite Hconv. reflexivity.
Qed.


(** X4.  The only errors [notify] reports on a manager reached from a new
    one are failed conversions to [str] or to [dict] of a payload for which
    there is a subscriber of that type: the error is the exception of
    [payload.decode('utf8')], or of [json.loads(payload)].  No error is ever
    reported for [bytes], and no type lacks its converter. *)
Theorem notify_errors_are_conversions (L : PyLib) (history : list (Callable * pyval))
    (payload : bytes) (ty : pytype) (e : pyexc) :
  In (LogError ty e) (fst (notify (manager_of L history) payload)) ->
  (ty = Plain Cstr /\ bytes_decode_utf8 L payload = Raise e
   /\ exists s subscribers,
       dict_lookup (Plain Cstr) (subscribers_by_type (manager_of L history))
       = Some (s :: subscribers))
  \/ (ty = Plain Cdict /\ json_loads L payload = Raise e
      /\ exists s subscribers,
          dict_lookup (Plain Cdict) (subscribers_by_type (manager_of L history))
          = Some (s :: subscribers)).
Proof.
  intros Hin. apply notify_trace_planned, plan_errors in Hin as (subscribers & Hin & Hne & He).
  rewrite (proj2 (manager_of_shape L history)), init_converters in He.
  rewrite !manager_of_lookup. rewrite manager_of_table in Hin.
  unfold builtin_types in Hin. simpl in Hin.
  destruct Hin as [Hin|[Hin|[Hin|[]]]]; injection Hin as <- <-; simpl in He.
  - discriminate.
  - right. split; [reflexivity|]. split; [exact He|].
    destruct (registered (Plain Cdict) history) as [|s l]; [contradiction|].
    exists s, l. reflexivity.
  - left. split; [reflexivity|]. split.
    + unfold _convert_to_str in He.
      destruct (bytes_decode_utf8 L payload); [discriminate|congruence].
    + destruct (registered (Plain Cstr) history) as [|s l]; [contradiction|].
      exists s, l. reflexivity.
Qed.

(** X5.  The first [bytes] subscriber is served whatever the payload and
    whoever else listens: when it has no filter, or one equal to the raw
    payload, every [notify] on a manager reached from a new one begins with
    the conversion to [bytes], which cannot fail, and the call of that
    subscriber with the raw payload. *)
Theorem first_bytes_subscriber_served (L : PyLib) (history : list (Callable * pyval))
    (payload : bytes) (s : Subscriber) (subscribers : list Subscriber) :
  dict_lookup (Plain Cbytes) (subscribers_by_type (manager_of L history))
  = Some (s :: subscribers) ->
  payload_filter s = VNone \/ py_eq (VBytes payload) (payload_filter s) = true ->
  exists trace r,
    notify (manager_of L history) payload
    = (Convert (Plain Cbytes)
         :: Call (callback s)
                 (match datatype s with None => [] | Some _ => [VBytes payload] end)
         :: trace, r).
Proof.
  intros Hl Hpass. rewrite manager_of_lookup in Hl. simpl in Hl. injection Hl as Hl.
  unfold notify.
  rewrite (proj2 (manager_of_shape L history)), init_converters, manager_of_table.
  unfold builtin_types. cbn [map]. rewrite Hl.
  remember [(Plain Cdict, registered (Plain Cdict) history);
            (Plain Cstr, registered (Plain Cstr) history)] as items.
  remember [(Plain Cbytes, _convert_to_bytes); (Plain Cdict, _convert_to_dict L);
            (Plain Cstr, _convert_to_str L)] as convs.
  assert (dict_lookup (Plain Cbytes) convs = Some _convert_to_bytes) as Hc
    by (subst convs; reflexivity).
  cbn [notify_items]. rewrite Hc. unfold _convert_to_bytes at 1.
  cbn [notify_subscribers].
  assert (negb (is_none (payload_filter s)) && py_ne (VBytes payload) (payload_filter s)
          = false) as ->.
  { unfold py_ne. destruct Hpass as [-> | ->]; [reflexivity|]. apply andb_false_r. }
  destruct (cb_call (callback s) _) as [u|e].
  - destruct (notify_subscribers (VBytes payload) subscribers) as [trace1 [u1|e1]].
    + destruct (notify_items convs payload items) as [trace2 r].
      eexists _, _. reflexivity.
    + eexists _, _. reflexivity.
  - eexists _, _. reflexivity.
Qed.

End Traces.


Lemma notify_errors_are_conversions_witness :
  (Plain Cstr = Plain Cstr
   /\ bytes_decode_utf8 example_lib [xff] = Raise (Exception "UnicodeDecodeError")
   /\ exists s subscribers,
       dict_lookup (Plain Cstr) (SubscriberManager.subscribers_by_type manager_gs)
       = Some (s :: subscribers))
  \/ (Plain Cstr = Plain Cdict
      /\ json_loads example_lib [xff] = Raise (Exception "UnicodeDecodeError")
      /\ exists s subscribers,
          dict_lookup (Plain Cdict) (SubscriberManager.subscribers_by_type manager_gs)
          = Some (s :: subscribers)).
Proof.
  apply (notify_errors_are_conversions example_lib
           [ (def1 "g" returns, VNone); (def1_typed "s" (Plain Cstr) returns, VNone) ]
           [xff] (Plain Cstr) (Exception "UnicodeDecodeError")).
  vm_compute. right. right. right. left. reflexivity.
Defined.

Lemma first_bytes_subscriber_served_witness :
  exists trace r,
    SubscriberManager.notify manager_fgh [xff]
    = (Convert (Plain Cbytes) :: Call (def1 "f" raises) [VBytes [xff]] :: trace, r).
Proof.
  apply (first_bytes_subscriber_served example_lib
           [ (def1 "f" raises, VNone);
             (def1 "g" returns, VNone);
             (def1_typed "h" (Plain Cstr) returns, VNone) ]
           [xff]
           {| callback := def1 "f" raises; datatype := Some (Plain Cbytes);
              payload_filter := VNone |}
           [ {| callback := def1 "g" returns; datatype := Some (Plain Cbytes);
                payload_filter := VNone |} ]).
  - reflexivity.
  - left. reflexivity.
Defined.

(* ===================================================================== *)
(** * Part X: registrations and messages by topic                         *)
(* ===================================================================== *)

Section TopicTable.

Variable L : PyLib.

Lemma manager_of_extend (history : list (Callable * pyval)) :
  manager_of L history = extend (SubscriberManager.__init__ L) history.
Proof. reflexivity. Qed.

(** One registration with a client at hand: the manager of the topic, a new
    one if there was none, takes the registration, and the call ends as the
    call of that manager does; [subscribe] is called when there was none. *)
Lemma add_subscriber_exact (g : Globals) (client : Client) (topic : string)
    (cb : Callable) (f : pyval) :
  _mqtt_client g = Some client ->
  add_subscriber L g topic cb f
  = ({| _mqtt_client :=
          Some (match _subscribers g !! topic with
                | Some _ => client
                | None => subscribe client topic
                end);
        _subscribers :=
          <[topic := fst (SubscriberManager.add_subscriber
                            (default (SubscriberManager.__init__ L) (_subscribers g !! topic))
                            cb f)]> (_subscribers g) |},
     match snd (SubscriberManager.add_subscriber
                  (default (SubscriberManager.__init__ L) (_subscribers g !! topic))
                  cb f) with
     | Ok _ => Ok tt
     | Raise e => Raise e
     end).
Proof.
  intros Hclient. unfold add_subscriber, get_client. rewrite Hclient.
  destruct (_subscribers g !! topic) as [manager|]; simpl.
  - reflexivity.
  - rewrite insert_insert_eq. reflexivity.
Qed.

Lemma history_for_cons (topic topic' : string) (cb : Callable) (f : pyval)
    (calls : list (string * Callable * pyval)) :
  history_for topic ((topic', cb, f) :: calls)
  = if decide (topic' = topic) then (cb, f) :: history_for topic calls
    else history_for topic calls.
Proof.
  unfold history_for. simpl.
  destruct (decide (topic' = topic)) as [->|Hne].
  - rewrite String.eqb_refl. reflexivity.
  - apply String.eqb_neq in Hne. rewrite Hne. reflexivity.
Qed.

Lemma history_for_nil (topic : string) (calls : list (string * Callable * pyval)) :
  history_for topic calls = [] <-> ~ In topic (map topic_of calls).
Proof.
  induction calls as [|[[topic' cb] f] calls IH]; simpl; [tauto|].
  rewrite history_for_cons. destruct (decide (topic' = topic)) as [->|Hne].
  - split; [discriminate|]. intros H. exfalso. apply H. left. reflexivity.
  - rewrite IH. tauto.
Qed.

(** A sequence of registrations with a client at hand: [subscribe] is called
    for the topics that had no manager, at their first registration; every
    manager takes the registrations of its topic. *)
Lemma add_subscribers_exact (calls : list (string * Callable * pyval)) :
  forall (g : Globals) (client : Client),
    _mqtt_client g = Some client ->
    _mqtt_client (fst (add_subscribers L g calls))
    = Some {| subscribe_calls :=
                subscribe_calls client ++ new_topics (dom (_subscribers g)) calls;
              on_message := on_message client |}
    /\ forall topic,
         _subscribers (fst (add_subscribers L g calls)) !! topic
         = match _subscribers g !! topic with
           | Some manager => Some (extend manager (history_for topic calls))
           | None =>
               match history_for topic calls with
               | [] => None
               | history => Some (extend (SubscriberManager.__init__ L) history)
               end
           end.
Proof.
  induction calls as [|[[topic cb] f] calls IH]; intros g client Hclient.
  - split.
    + simpl. rewrite Hclient, app_nil_r. destruct client; reflexivity.
    + intros topic. simpl. destruct (_subscribers g !! topic); reflexivity.
  - cbn [add_subscribers fst]. rewrite (add_subscriber_exact g client topic cb f Hclient).
    cbn [fst].
    match goal with
    | |- context [add_subscribers L ?g1 calls] =>
        destruct (IH g1 _ eq_refl) as (Hclient' & Htable)
    end.
    split.
    + rewrite Hclient'. cbn [_subscribers new_topics topic_of]. rewrite dom_insert_L.
      destruct (_subscribers g !! topic) as [manager|] eqn:Hl.
      * assert (topic ∈ dom (_subscribers g)) as Hdom by (apply elem_of_dom; eauto).
        rewrite decide_True by exact Hdom.
        rewrite (subseteq_union_1_L {[topic]} (dom (_subscribers g)))
          by (apply singleton_subseteq_l; exact Hdom).
        reflexivity.
      * assert (topic ∉ dom (_subscribers g)) as Hdom
          by (apply not_elem_of_dom; exact Hl).
        rewrite decide_False by exact Hdom.
        simpl. rewrite <- app_assoc. reflexivity.
    + intros topic'. rewrite Htable. cbn [_subscribers].
      rewrite history_for_cons.
      destruct (decide (topic = topic')) as [<-|Hne].
      * rewrite lookup_insert_eq.
        destruct (_subscribers g !! topic) as [manager|]; reflexivity.
      * rewrite lookup_insert_ne by exact Hne. reflexivity.
Qed.

(** With a client at hand, the well-formed registrations of a sequence
    return. *)
Lemma add_subscribers_results (calls : list (string * Callable * pyval)) :
  forall (g : Globals) (client : Client),
    _mqtt_client g = Some client ->
    Forall2 (fun call r => well_formed (snd (fst call)) (snd call) -> r = Ok tt)
      calls (snd (add_subscribers L g calls)).
Proof.
  induction calls as [|[[topic cb] f] calls IH]; intros g client Hclient.
  - constructor.
  - cbn [add_subscribers snd]. constructor.
    + cbn [fst snd]. intros Hwf.
      rewrite (add_subscriber_exact g client topic cb f Hclient). cbn [snd].
      destruct (proj1 (add_subscriber_returns
                         (default (SubscriberManager.__init__ L) (_subscribers g !! topic))
                         cb f) Hwf) as [what ->].
      reflexivity.
    + rewrite (add_subscriber_exact g client topic cb f Hclient) at 1. cbn [fst].
      match goal with
      | |- context [add_subscribers L ?g1 calls] => exact (IH g1 _ eq_refl)
      end.
Qed.

Lemma new_topics_spec (calls : list (string * Callable * pyval)) :
  forall known : gset string,
    NoDup (new_topics known calls)
    /\ forall topic,
         topic ∈ new_topics known calls
         <-> In topic (map topic_of calls) /\ topic ∉ known.
Proof.
  induction calls as [|call calls IH]; intros known; simpl.
  - split; [apply NoDup_nil_2|]. intros topic. rewrite elem_of_nil. tauto.
  - destruct (decide (topic_of call ∈ known)) as [Hk|Hk].
    + destruct (IH known) as [Hnodup Hiff]. split; [exact Hnodup|].
      intros topic. rewrite Hiff. split; [tauto|].
      intros [[<-|H] Hn]; [contradiction|tauto].
    + destruct (IH ({[topic_of call]} ∪ known)) as [Hnodup Hiff].
      split.
      * apply NoDup_cons. split; [|exact Hnodup]. rewrite Hiff. intros [_ H].
        apply H, elem_of_union. left. apply elem_of_singleton. reflexivity.
      * intros topic. rewrite elem_of_cons, Hiff.
        destruct (decide (topic = topic_of call)) as [->|Hne].
        -- split; [intros _; split; [left; reflexivity|exact Hk]|intros _; left; reflexivity].
        -- split.
           ++ intros [H|[H1 H2]]; [contradiction|]. split; [right; exact H1|].
              intros Hk'. apply H2, elem_of_union. right. exact Hk'.
           ++ intros [[H|H1] H2]; [congruence|]. right. split; [exact H1|].
              rewrite elem_of_union, elem_of_singleton. tauto.
Qed.


(** X6.  Messages reach the registrations of their own topic.  After any
    sequence of calls of the module's [add_subscriber], made once a client
    is registered, whether these calls return or raise, a message on a topic
    that none of the calls names gets the warning and reaches nobody; a
    message on any other topic is handed to [notify] of a manager that holds
    the registrations made on that topic, in their order, and none made on
    another topic.  The calls whose registration is well-formed return. *)
Theorem message_reaches_its_topic (calls : list (string * Callable * pyval))
    (client : Client) :
  exists g' results,
    add_subscribers L (register_client module_init client) calls = (g', results)
    /\ Forall2 (fun call r => well_formed (snd (fst call)) (snd call) -> r = Ok tt)
         calls results
    /\ forall topic payload,
         _on_mqtt_message g' topic payload
         = match history_for topic calls with
           | [] => NoSubscribers
           | history =>
               Notified
                 (fst (SubscriberManager.notify (manager_of L history) payload))
                 (snd (SubscriberManager.notify (manager_of L history) payload))
           end
         /\ (history_for topic calls = [] <-> ~ In topic (map topic_of calls)).
Proof.
  destruct (add_subscribers_exact calls (register_client module_init client) _ eq_refl)
    as (_ & Htable).
  eexists _, _. split; [apply surjective_pairing|].
  split; [apply (add_subscribers_results calls (register_client module_init client) _
                   eq_refl)|].
  intros topic payload.
  split; [|apply history_for_nil].
  unfold _on_mqtt_message. rewrite Htable.
  cbn [register_client module_init _subscribers]. rewrite lookup_empty.
  destruct (history_for topic calls) as [|r history]; [reflexivity|].
  rewrite <- manager_of_extend.
  destruct (SubscriberManager.notify (manager_of L (r :: history)) payload). reflexivity.
Qed.


(** X8.  With a client registered, a sequence of calls of [add_subscriber],
    whether they return or raise, calls [subscribe] on the client for
    exactly the topics of the sequence that had no manager before, once
    each, in the order in which these topics are first named, and after the
    calls made on the client before; the [on_message] hook is left as it
    is.  The calls whose registration is well-formed return. *)
Theorem subscribe_in_order_of_first_use (calls : list (string * Callable * pyval))
    (g : Globals) (client : Client) :
  _mqtt_client g = Some client ->
  exists g' client' results,
    add_subscribers L g calls = (g', results)
    /\ Forall2 (fun call r => well_formed (snd (fst call)) (snd call) -> r = Ok tt)
         calls results
    /\ _mqtt_client g' = Some client'
    /\ subscribe_calls client'
       = subscribe_calls client ++ new_topics (dom (_subscribers g)) calls
    /\ on_message client' = on_message client
    /\ NoDup (new_topics (dom (_subscribers g)) calls)
    /\ forall topic,
         topic ∈ new_topics (dom (_subscribers g)) calls
         <-> In topic (map topic_of calls) /\ _subscribers g !! topic = None.
Proof.
  intros Hclient.
  destruct (add_subscribers_exact calls g client Hclient) as (Hclient' & _).
  eexists _, _, _. split; [apply surjective_pairing|].
  split; [apply (add_subscribers_results calls g client Hclient)|].
  split; [exact Hclient'|].
  split; [reflexivity|]. split; [reflexivity|].
  destruct (new_topics_spec calls (dom (_subscribers g))) as [Hnodup Hiff].
  split; [exact Hnodup|]. intros topic. rewrite Hiff, not_elem_of_dom. reflexivity.
Qed.

End TopicTable.


Lemma subscribe_in_order_of_first_use_witness :
  exists g' client' results,
    add_subscribers example_lib
      (register_client module_init {| subscribe_calls := []; on_message := false |})
      [ ("light/state"%string, def1_typed "s" (Plain Cstr) returns, VStr "on");
        ("door"%string, partial 1 returns, VStr "open");
        ("light/state"%string, def1 "g" returns, VNone) ]
    = (g', results)
    /\ Forall2 (fun call r => well_formed (snd (fst call)) (snd call) -> r = Ok tt)
         [ ("light/state"%string, def1_typed "s" (Plain Cstr) returns, VStr "on");
           ("door"%string, partial 1 returns, VStr "open");
           ("light/state"%string, def1 "g" returns, VNone) ]
         results
    /\ _mqtt_client g' = Some client'
    /\ subscribe_calls client'
       = [] ++ new_topics
                 (dom (_subscribers
                         (register_client module_init
                            {| subscribe_calls := []; on_message := false |})))
                 [ ("light/state"%string, def1_typed "s" (Plain Cstr) returns, VStr "on");
                   ("door"%string, partial 1 returns, VStr "open");
                   ("light/state"%string, def1 "g" returns, VNone) ]
    /\ on_message client' = true
    /\ NoDup (new_topics
                (dom (_subscribers
                        (register_client module_init
                           {| subscribe_calls := []; on_message := false |})))
                [ ("light/state"%string, def1_typed "s" (Plain Cstr) returns, VStr "on");
                  ("door"%string, partial 1 returns, VStr "open");
                  ("light/state"%string, def1 "g" returns, VNone) ])
    /\ forall topic,
         topic ∈ new_topics
                   (dom (_subscribers
                           (register_client module_init
                              {| subscribe_calls := []; on_message := false |})))
                   [ ("light/state"%string, def1_typed "s" (Plain Cstr) returns, VStr "on");
                     ("door"%string, partial 1 returns, VStr "open");
                     ("light/state"%string, def1 "g" returns, VNone) ]
         <-> In topic
               (map topic_of
                  [ ("light/state"%string, def1_typed "s" (Plain Cstr) returns, VStr "on");
                    ("door"%string, partial 1 returns, VStr "open");
                    ("light/state"%string, def1 "g" returns, VNone) ])
             /\ _subscribers
                  (register_client module_init
                     {| subscribe_calls := []; on_message := false |}) !! topic = None.
Proof.
  apply (subscribe_in_order_of_first_use example_lib
           [ ("light/state"%string, def1_typed "s" (Plain Cstr) returns, VStr "on");
             ("door"%string, partial 1 returns, VStr "open");
             ("light/state"%string, def1 "g" returns, VNone) ]
           (register_client module_init {| subscribe_calls := []; on_message := false |})
           {| subscribe_calls := []; on_message := true |}).
  reflexivity.
Defined.

(* ===================================================================== *)
(** * Part XI: rounds of the scheduler, jobs and [stop]                   *)
(* ===================================================================== *)

Section Rounds.

Lemma run_app (self : Location) (a a' : list action) :
  run self (a ++ a') = run (run self a) a'.
Proof. apply fold_left_app. Qed.

(** [remove] takes out the entry itself when no entry before it belongs to
    the same job. *)
Lemma list_remove_middle (cb : Callback.t) (l1 l2 : list Callback.t) :
  job_id (Callback.callable cb) ∉ job_ids l1 ->
  list_remove cb (l1 ++ cb :: l2) = Some (l1 ++ l2).
Proof.
  induction l1 as [|y l1 IH]; intros Hfresh; simpl.
  - rewrite Callback_eqb_refl. reflexivity.
  - unfold job_ids in Hfresh. rewrite fmap_cons, not_elem_of_cons in Hfresh.
    destruct Hfresh as [Hy Hfresh].
    destruct (Callback.eqb cb y) eqn:Heq.
    + apply Callback_eqb_job in Heq. contradiction.
    + rewrite (IH Hfresh). reflexivity.
Qed.

(** The loop passes over an entry that is not due. *)
Lemma loop_next_skip (self : Location) (cb : Callback.t) (rest : list Callback.t) :
  loop_call self = None ->
  loop_rest self = cb :: rest ->
  due (loop_now self) cb = false ->
  loop_next self = with_loop self (_pending_callbacks self) (loop_now self) rest None.
Proof.
  intros Hcall Hrest Hdue. unfold loop_next. unfold due in Hdue.
  rewrite Hcall, Hrest, Hdue. reflexivity.
Qed.

(** The loop takes a due entry and its job runs to the end. *)
Lemma loop_next_fire (self : Location) (cb : Callback.t) (rest l1 l2 : list Callback.t)
    (func_result : result unit) (now : datetime) :
  loop_call self = None ->
  loop_rest self = cb :: rest ->
  due (loop_now self) cb = true ->
  _pending_callbacks self = l1 ++ cb :: l2 ->
  job_id (Callback.callable cb) ∉ job_ids l1 ->
  job_return func_result now (loop_next self)
  = match func_result,
          occurrence (_sun self) (job_code (Callback.callable cb)) (day_of now + 1)
    with
    | Ok _, Ok when =>
        append_callback
          (log_call (with_loop self (l1 ++ l2) (loop_now self) rest None) cb)
          when (Callback.callable cb)
    | Ok _, Raise e | Raise e, _ =>
        print_error (log_call (with_loop self (l1 ++ l2) (loop_now self) rest None) cb) e
    end.
Proof.
  intros Hcall Hrest Hdue Hpending Hfresh. unfold loop_next. unfold due in Hdue.
  rewrite Hcall, Hrest, Hdue, Hpending, (list_remove_middle cb l1 l2 Hfresh).
  unfold job_return. cbn [log_call with_loop loop_call].
  destruct func_result as [u|e]; [|reflexivity].
  rewrite job_reschedule_append. cbn [_sun log_call with_loop].
  destruct (occurrence _ _ _); reflexivity.
Qed.

Lemma round_from (now : datetime) (outcome : Callback.t -> result unit * datetime)
    (copy : list Callback.t) :
  forall (self : Location) (before after : list Callback.t),
    consistent self ->
    loop_call self = None ->
    loop_rest self = copy ->
    loop_now self = now ->
    _pending_callbacks self = before ++ copy ++ after ->
    _pending_callbacks (run self (round_actions now outcome copy))
    = before ++ List.filter (fun cb => negb (due now cb)) copy ++ after
        ++ rescheduled (_sun self) outcome (created self) (List.filter (due now) copy)
    /\ invoked (run self (round_actions now outcome copy))
       = invoked self ++ serials (List.filter (due now) copy)
    /\ func_calls (run self (round_actions now outcome copy))
       = func_calls self
           ++ map (fun cb => func_of (Callback.callable cb)) (List.filter (due now) copy)
    /\ printed (run self (round_actions now outcome copy))
       = printed self ++ raised_by (_sun self) outcome (List.filter (due now) copy)
    /\ loop_rest (run self (round_actions now outcome copy)) = []
    /\ loop_call (run self (round_actions now outcome copy)) = None
    /\ _running (run self (round_actions now outcome copy)) = _running self.
Proof.
  induction copy as [|cb rest IH]; intros self before after Hcons Hcall Hrest Hnow Hpending.
  - simpl. rewrite !app_nil_r. rewrite Hpending. simpl. repeat split; assumption.
  - cbn [round_actions List.filter]. rewrite run_app.
    destruct (due now cb) eqn:Hdue; cbn [negb].
    + assert (job_id (Callback.callable cb) ∉ job_ids before) as Hfresh.
      { pose proof (jobs_nodup self Hcons) as Hj.
        rewrite Hcall, app_nil_r, Hpending in Hj. unfold job_ids in Hj.
        rewrite fmap_app in Hj. apply NoDup_app in Hj as (_ & Hj & _).
        intros Hin. apply (Hj _ Hin). simpl. apply elem_of_cons. left. reflexivity. }
      assert (consistent (run self [LoopNext; JobReturn (fst (outcome cb)) (snd (outcome cb))]))
        as Hcons' by (apply consistent_run; exact Hcons).
      revert Hcons'. cbn [run fold_left step].
      rewrite <- Hnow in Hdue.
      rewrite (loop_next_fire self cb rest before (rest ++ after) _ _
                 Hcall Hrest Hdue Hpending Hfresh).
      cbn [rescheduled raised_by serials job_ids map fmap list_fmap].
      destruct (fst (outcome cb)) as [u|e];
        [destruct (occurrence (_sun self) (job_code (Callback.callable cb))
                     (day_of (snd (outcome cb)) + 1)) as [when|e]|];
        intros Hcons'.
      * match goal with
        | |- context [run ?s0 (round_actions now outcome rest)] => set (s := s0) in *
        end.
        assert (loop_now s = now) as Hn by exact Hnow.
        assert (_pending_callbacks s
                = before ++ rest
                    ++ (after ++ [ {| Callback.serial := created self;
                                      Callback.datetime := when;
                                      Callback.callable := Callback.callable cb |} ]))
          as Hp by (subst s; simpl; rewrite <- !app_assoc; reflexivity).
        destruct (IH s before _ Hcons' eq_refl eq_refl Hn Hp)
          as (H1 & H2 & H3 & H4 & H5 & H6 & H7).
        rewrite H1, H2, H3, H4, H5, H6, H7. subst s. simpl. unfold serials.
        rewrite <- !app_assoc. repeat split; reflexivity.
      * match goal with
        | |- context [run ?s0 (round_actions now outcome rest)] => set (s := s0) in *
        end.
        assert (loop_now s = now) as Hn by exact Hnow.
        assert (_pending_callbacks s = before ++ rest ++ after) as Hp by reflexivity.
        destruct (IH s before _ Hcons' eq_refl eq_refl Hn Hp)
          as (H1 & H2 & H3 & H4 & H5 & H6 & H7).
        rewrite H1, H2, H3, H4, H5, H6, H7. subst s. simpl. unfold serials.
        rewrite <- !app_assoc. repeat split; reflexivity.
      * match goal with
        | |- context [run ?s0 (round_actions now outcome rest)] => set (s := s0) in *
        end.
        assert (loop_now s = now) as Hn by exact Hnow.
        assert (_pending_callbacks s = before ++ rest ++ after) as Hp by reflexivity.
        destruct (IH s before _ Hcons' eq_refl eq_refl Hn Hp)
          as (H1 & H2 & H3 & H4 & H5 & H6 & H7).
        rewrite H1, H2, H3, H4, H5, H6, H7. subst s. simpl. unfold serials.
        rewrite <- !app_assoc. repeat split; reflexivity.
    + assert (consistent (run self [LoopNext])) as Hcons'
        by (apply consistent_run; exact Hcons).
      revert Hcons'. cbn [run fold_left step].
      rewrite <- Hnow in Hdue.
      rewrite (loop_next_skip self cb rest Hcall Hrest Hdue). intros Hcons'.
      match goal with
      | |- context [run ?s0 (round_actions now outcome rest)] => set (s := s0) in *
      end.
      assert (loop_now s = now) as Hn by exact Hnow.
      assert (_pending_callbacks s = (before ++ [cb]) ++ rest ++ after) as Hp
        by (subst s; simpl; rewrite Hpending, <- app_assoc; reflexivity).
      destruct (IH s _ _ Hcons' eq_refl eq_refl Hn Hp)
        as (H1 & H2 & H3 & H4 & H5 & H6 & H7).
      rewrite H1, H2, H3, H4, H5, H6, H7. subst s. simpl.
      rewrite <- !app_assoc. repeat split; reflexivity.
Qed.

(** X9.  One round of the scheduler loop, run without interference while
    the location is running and its thread alive, in which every function
    returns or raises an exception that the loop catches (an [Exception]):
    every entry that is due at the instant the round reads the clock is
    removed and its job called, once, in the order of the list, whether or
    not the jobs called before it raised; the entries that are not due
    stay, in their order.  Each job whose function returned and that has an
    occurrence the day after has appended one new entry for itself, at that
    occurrence; the exceptions of the other jobs, raised by their function
    or by the sun library, have been printed; and the round ends with
    nothing left to walk. *)
Theorem scheduler_round (self : Location) (now : datetime)
    (outcome : Callback.t -> result unit * datetime) :
  consistent self ->
  _running self = true ->
  thread_alive self = true ->
  loop_rest self = [] ->
  loop_call self = None ->
  _pending_callbacks
    (run self (LoopBegin now :: round_actions now outcome (_pending_callbacks self)))
  = List.filter (fun cb => negb (due now cb)) (_pending_callbacks self)
      ++ rescheduled (_sun self) outcome (created self)
           (List.filter (due now) (_pending_callbacks self))
  /\ invoked
       (run self (LoopBegin now :: round_actions now outcome (_pending_callbacks self)))
     = invoked self ++ serials (List.filter (due now) (_pending_callbacks self))
  /\ func_calls
       (run self (LoopBegin now :: round_actions now outcome (_pending_callbacks self)))
     = func_calls self
         ++ map (fun cb => func_of (Callback.callable cb))
              (List.filter (due now) (_pending_callbacks self))
  /\ printed
       (run self (LoopBegin now :: round_actions now outcome (_pending_callbacks self)))
     = printed self
         ++ raised_by (_sun self) outcome (List.filter (due now) (_pending_callbacks self))
  /\ loop_rest
       (run self (LoopBegin now :: round_actions now outcome (_pending_callbacks self)))
     = []
  /\ loop_call
       (run self (LoopBegin now :: round_actions now outcome (_pending_callbacks self)))
     = None.
Proof.
  intros Hcons Hrunning Halive Hrest Hcall.
  assert (consistent (loop_begin now self)) as Hcons' by (apply consistent_loop_begin, Hcons).
  revert Hcons'. cbn [run fold_left step]. unfold loop_begin.
  rewrite Hrest, Hcall, Hrunning, Halive. cbn [andb]. intros Hcons'.
  match goal with
  | |- context [fold_left step ?acts ?s0] =>
      change (fold_left step acts s0) with (run s0 acts); set (s := s0) in *
  end.
  assert (_pending_callbacks s = [] ++ _pending_callbacks self ++ []) as Hp
    by (subst s; simpl; rewrite app_nil_r; reflexivity).
  destruct (round_from now outcome (_pending_callbacks self) s [] []
              Hcons' eq_refl eq_refl eq_refl Hp)
    as (H1 & H2 & H3 & H4 & H5 & H6 & _).
  rewrite H1, H2, H3, H4, H5, H6. subst s. simpl.
  repeat split; reflexivity.
Qed.

End Rounds.


Section Jobs.

(** X10.  At every moment of every run of a location, each job has at most
    one entry in the list of pending callbacks, and the job that is being
    executed has none: a job is never scheduled twice at once. *)
Theorem one_pending_entry_per_job (sun : Sun) (actions : list action) :
  NoDup (job_ids (_pending_callbacks (run (Location_init sun) actions)))
  /\ forall cb,
       loop_call (run (Location_init sun) actions) = Some cb ->
       job_id (Callback.callable cb)
         ∉ job_ids (_pending_callbacks (run (Location_init sun) actions)).
Proof.
  pose proof (jobs_nodup _ (consistent_run actions _ (consistent_init sun))) as Hj.
  unfold job_ids in *. rewrite fmap_app in Hj.
  apply NoDup_app in Hj as (Hj1 & Hj2 & _). split; [exact Hj1|].
  intros cb Hcall Hin. apply (Hj2 _ Hin). rewrite Hcall. simpl.
  apply elem_of_cons. left. reflexivity.
Qed.

(** The jobs that have an entry or are being executed. *)
Lemma scheduled_jobs_step (self : Location) (a : action) (j : nat) :
  consistent self ->
  (j < created self)%nat ->
  j ∉ job_ids (_pending_callbacks self ++ option_list (loop_call self)) ->
  (j < created (step self a))%nat
  /\ j ∉ job_ids (_pending_callbacks (step self a) ++ option_list (loop_call (step self a))).
Proof.
  intros Hcons Hlt Hout.
  assert (forall code when,
             (j < created (append_callback (fst (new_job self code)) when
                             (snd (new_job self code))))%nat
             /\ j ∉ job_ids
                      (_pending_callbacks
                         (append_callback (fst (new_job self code)) when
                            (snd (new_job self code)))
                       ++ option_list
                            (loop_call
                               (append_callback (fst (new_job self code)) when
                                  (snd (new_job self code)))))) as Hreg.
  { intros code when. simpl. split; [lia|].
    unfold job_ids in *. rewrite !fmap_app in *. simpl.
    rewrite !elem_of_app, elem_of_cons, elem_of_nil in *. intros [[H|[H|[]]]|H].
    - apply Hout. left. exact H.
    - lia.
    - apply Hout. right. exact H. }
  assert (forall code,
             (j < created (fst (new_job self code)))%nat
             /\ j ∉ job_ids
                      (_pending_callbacks (fst (new_job self code))
                       ++ option_list (loop_call (fst (new_job self code))))) as Hnew.
  { intros code. simpl. split; [lia|exact Hout]. }
  destruct a as [offset func now|offset func now|target func now|now| |r now| | ];
    cbn [step].
  - destruct (on_sunrise_register offset func now self) as (code & [-> | (when & ->)]);
      [apply Hnew|apply Hreg].
  - destruct (on_sunset_register offset func now self) as (code & [-> | (when & ->)]);
      [apply Hnew|apply Hreg].
  - destruct (on_localtime_register target func now self) as (code & when & ->). apply Hreg.
  - unfold loop_begin.
    destruct (loop_rest self) eqn:Hrest; [|split; assumption].
    destruct (loop_call self) eqn:Hcall;
      [split; [assumption|]; rewrite ?Hcall; assumption|].
    destruct (_running self && thread_alive self);
      (split; [assumption|]); simpl; rewrite ?Hcall; assumption.
  - unfold loop_next.
    pose proof (jobs_nodup self Hcons) as Hj.
    pose proof (rest_pending self Hcons) as Hrp.
    destruct (loop_call self) eqn:Hcall;
      [split; [assumption|]; rewrite ?Hcall; assumption|].
    destruct (loop_rest self) as [|cb rest] eqn:Hrest;
      [split; [assumption|]; rewrite ?Hcall; assumption|].
    simpl in Hout. rewrite app_nil_r in Hout, Hj.
    destruct (loop_now self >=? Callback.datetime cb).
    + destruct (list_remove cb (_pending_callbacks self)) as [pending|] eqn:Hremove.
      * assert (cb ∈ _pending_callbacks self) as Hcb
          by (apply Hrp, elem_of_cons; left; reflexivity).
        destruct (list_remove_split cb _ Hj Hcb) as (l1 & l2 & Hsplit & Hsome).
        rewrite Hremove in Hsome. injection Hsome as ->.
        simpl. split; [exact Hlt|]. rewrite Hsplit in Hout.
        unfold job_ids in *. rewrite !fmap_app in *. simpl in *.
        rewrite !elem_of_app, !elem_of_cons, elem_of_nil in *. tauto.
      * simpl. split; [exact Hlt|]. rewrite app_nil_r. exact Hout.
    + simpl. split; [exact Hlt|]. rewrite app_nil_r. exact Hout.
  - unfold job_return.
    destruct (loop_call self) as [cb|] eqn:Hcall;
      [|split; [assumption|]; rewrite ?Hcall; assumption].
    destruct r as [u|e]; [rewrite job_reschedule_append; destruct (occurrence _ _ _)|].
    + simpl. split; [lia|].
      simpl in Hout. unfold job_ids in *. rewrite !fmap_app in *. simpl in *.
      rewrite !elem_of_app, !elem_of_cons, elem_of_nil in *. tauto.
    + simpl. split; [exact Hlt|].
      simpl in Hout. unfold job_ids in *. rewrite !fmap_app in *. simpl in *.
      rewrite !elem_of_app, !elem_of_cons, elem_of_nil in *. tauto.
    + simpl. split; [exact Hlt|].
      simpl in Hout. unfold job_ids in *. rewrite !fmap_app in *. simpl in *.
      rewrite !elem_of_app, !elem_of_cons, elem_of_nil in *. tauto.
  - unfold job_exit.
    destruct (loop_call self) as [cb|] eqn:Hcall;
      [|split; [assumption|]; rewrite ?Hcall; assumption].
    simpl. split; [exact Hlt|].
    simpl in Hout. unfold job_ids in *. rewrite !fmap_app in *. simpl in *.
    rewrite !elem_of_app, !elem_of_cons, elem_of_nil in *. tauto.
  - split; assumption.
Qed.

Lemma scheduled_jobs_run (actions : list action) :
  forall (self : Location) (j : nat),
    consistent self ->
    (j < created self)%nat ->
    j ∉ job_ids (_pending_callbacks self ++ option_list (loop_call self)) ->
    j ∉ job_ids (_pending_callbacks (run self actions)
                 ++ option_list (loop_call (run self actions))).
Proof.
  induction actions as [|a actions IH]; intros self j Hcons Hlt Hout; [exact Hout|].
  destruct (scheduled_jobs_step self a j Hcons Hlt Hout) as [Hlt' Hout'].
  simpl. apply IH; [apply consistent_step, Hcons|exact Hlt'|exact Hout'].
Qed.

(** X11.  A job whose function raises is never called again.  When the
    function called by the job of an entry raises, the job has no entry any
    more, and whatever happens afterwards (rounds of the loop, other jobs,
    new registrations) it never gets one and is never executed again. *)
Theorem raising_job_never_scheduled_again (self : Location) (cb : Callback.t)
    (e : pyexc) (now : datetime) (actions : list action) :
  consistent self ->
  loop_call self = Some cb ->
  job_id (Callback.callable cb)
    ∉ job_ids (_pending_callbacks (run self (JobReturn (Raise e) now :: actions))
               ++ option_list (loop_call (run self (JobReturn (Raise e) now :: actions)))).
Proof.
  intros Hcons Hcall.
  assert (consistent (step self (JobReturn (Raise e) now))) as Hcons'
    by (apply consistent_step, Hcons).
  cbn [run fold_left]. apply (scheduled_jobs_run actions _ _ Hcons').
  - simpl. unfold job_return. rewrite Hcall. simpl.
    apply (objects_created self Hcons cb). rewrite Hcall.
    apply elem_of_app. right. apply elem_of_cons. left. reflexivity.
  - simpl. unfold job_return. rewrite Hcall. simpl. rewrite app_nil_r.
    pose proof (jobs_nodup self Hcons) as Hj. rewrite Hcall in Hj.
    unfold job_ids in *. rewrite fmap_app in Hj.
    apply NoDup_app in Hj as (_ & Hj & _). intros Hin. apply (Hj _ Hin).
    simpl. apply elem_of_cons. left. reflexivity.
Qed.



End Jobs.

Section LocalTime.





End LocalTime.


Lemma scheduler_round_witness :
  _pending_callbacks
    (run location_registered
       (LoopBegin (ten + 5 * minute)
          :: round_actions (ten + 5 * minute) all_return
               (_pending_callbacks location_registered)))
  = List.filter (fun cb => negb (due (ten + 5 * minute) cb))
      (_pending_callbacks location_registered)
      ++ rescheduled (_sun location_registered) all_return (created location_registered)
           (List.filter (due (ten + 5 * minute)) (_pending_callbacks location_registered))
  /\ invoked
       (run location_registered
          (LoopBegin (ten + 5 * minute)
             :: round_actions (ten + 5 * minute) all_return
                  (_pending_callbacks location_registered)))
     = invoked location_registered
         ++ serials (List.filter (due (ten + 5 * minute))
                       (_pending_callbacks location_registered))
  /\ func_calls
       (run location_registered
          (LoopBegin (ten + 5 * minute)
             :: round_actions (ten + 5 * minute) all_return
                  (_pending_callbacks location_registered)))
     = func_calls location_registered
         ++ map (fun cb => func_of (Callback.callable cb))
              (List.filter (due (ten + 5 * minute))
                 (_pending_callbacks location_registered))
  /\ printed
       (run location_registered
          (LoopBegin (ten + 5 * minute)
             :: round_actions (ten + 5 * minute) all_return
                  (_pending_callbacks location_registered)))
     = printed location_registered
         ++ raised_by (_sun location_registered) all_return
              (List.filter (due (ten + 5 * minute))
                 (_pending_callbacks location_registered))
  /\ loop_rest
       (run location_registered
          (LoopBegin (ten + 5 * minute)
             :: round_actions (ten + 5 * minute) all_return
                  (_pending_callbacks location_registered)))
     = []
  /\ loop_call
       (run location_registered
          (LoopBegin (ten + 5 * minute)
             :: round_actions (ten + 5 * minute) all_return
                  (_pending_callbacks location_registered)))
     = None.
Proof.
  apply (scheduler_round location_registered (ten + 5 * minute) all_return).
  - apply consistent_run, consistent_init.
  - reflexivity.
  - reflexivity.
  - reflexivity.
  - reflexivity.
Defined.

Lemma raising_job_never_scheduled_again_witness :
  job_id (Callback.callable entry_f)
    ∉ job_ids
        (_pending_callbacks
           (run location_calling_f
              (JobReturn (Raise (Exception "RuntimeError")) (ten + 5 * minute)
                 :: round_at_ten))
         ++ option_list
              (loop_call
                 (run location_calling_f
                    (JobReturn (Raise (Exception "RuntimeError")) (ten + 5 * minute)
                       :: round_at_ten)))).
Proof.
  apply (raising_job_never_scheduled_again location_calling_f entry_f
           (Exception "RuntimeError") (ten + 5 * minute) round_at_ten).
  - apply consistent_run, consistent_run, consistent_init.
  - reflexivity.
Defined.



